(** * Auto-Claude: spec lifecycle, phase configuration and worktree tools

    A shallow embedding of [auto-claude/phase_config.py] and
    [auto-claude/mcp/tools.py].

    - Python values that travel through [json.loads] and through the result
      dictionaries are one dynamically typed [value]; a method call on a value
      of the wrong kind raises, as in Python.
    - A function of the source is a computation [M A]: it receives the
      [World] (environment variables, file system, version-control state,
      subprocess behaviour) and returns a value or a raised exception together
      with the world it leaves behind.  Every file-system call, subprocess
      call and line of diagnostic output is appended to the world's [trace];
      reading an environment variable or the working directory leaves no
      trace.
    - Text is modelled as byte strings; case conversion is the ASCII one. *)

From Stdlib Require Import String Ascii List ZArith NArith Bool Lia.
Import ListNotations.

Local Open Scope list_scope.
Local Open Scope string_scope.
Local Open Scope Z_scope.

Set Warnings "-register-all".

(* ================================================================== *)
(** * Python values *)
(* ================================================================== *)

Module Py.

(** What [json.loads] produces and what the tools return: [None], booleans,
    integers, strings, lists and string-keyed dictionaries (in insertion
    order). *)
Inductive value : Type :=
| VNone
| VBool (b : bool)
| VInt (n : Z)
| VStr (s : string)
| VList (xs : list value)
| VDict (kvs : list (string * value)).

(** The exceptions the modelled code can meet. *)
Inductive exn : Type :=
| AttributeError (attr : string)
| TypeError (msg : string)
| KeyError (key : string)
| JSONDecodeError
| TimeoutExpired
| OSError (msg : string).

(** [str(e)] *)
Definition exn_str (e : exn) : string :=
  match e with
  | AttributeError a => "object has no attribute '" ++ a ++ "'"
  | TypeError m => m
  | KeyError k => "'" ++ k ++ "'"
  | JSONDecodeError => "Expecting value"
  | TimeoutExpired => "Command timed out"
  | OSError m => m
  end.

Inductive result (A : Type) : Type :=
| Val (a : A)
| Exc (e : exn).
Arguments Val {A} a.
Arguments Exc {A} e.

Definition rbind {A B : Type} (r : result A) (k : A -> result B) : result B :=
  match r with
  | Val a => k a
  | Exc e => Exc e
  end.

(** [for x in xs: s = body(s, x)] for a body that only computes or raises *)
Fixpoint rfor_each {A S : Type} (xs : list A) (body : S -> A -> result S) (s : S)
  : result S :=
  match xs with
  | [] => Val s
  | x :: rest => rbind (body s x) (rfor_each rest body)
  end.

(** ** Dictionaries *)

Fixpoint dict_lookup {A : Type} (k : string) (d : list (string * A)) : option A :=
  match d with
  | [] => None
  | (k', v) :: rest => if String.eqb k' k then Some v else dict_lookup k rest
  end.

(** [k in d] *)
Definition dict_mem {A : Type} (k : string) (d : list (string * A)) : bool :=
  match dict_lookup k d with Some _ => true | None => false end.

(** [d.get(k, dflt)] on a dictionary *)
Definition dict_get_or {A : Type} (d : list (string * A)) (k : string) (dflt : A) : A :=
  match dict_lookup k d with Some v => v | None => dflt end.

(** [d[k] = v]: an existing key keeps its position *)
Fixpoint dict_set {A : Type} (k : string) (v : A) (d : list (string * A))
  : list (string * A) :=
  match d with
  | [] => [(k, v)]
  | (k', v') :: rest =>
      if String.eqb k' k then (k, v) :: rest else (k', v') :: dict_set k v rest
  end.

Definition dict_keys {A : Type} (d : list (string * A)) : list string := map fst d.

(** ** Truthiness and comparison *)

Definition str_truthy (s : string) : bool :=
  match s with EmptyString => false | _ => true end.

(** [bool(v)] *)
Definition truthy (v : value) : bool :=
  match v with
  | VNone => false
  | VBool b => b
  | VInt n => negb (n =? 0)
  | VStr s => str_truthy s
  | VList xs => match xs with [] => false | _ => true end
  | VDict d => match d with [] => false | _ => true end
  end.

(** [bool(x)] for an argument of type [str | None] *)
Definition opt_truthy (o : option string) : bool :=
  match o with Some s => str_truthy s | None => false end.

(** An argument of type [str | None] as a value *)
Definition opt_value (o : option string) : value :=
  match o with Some s => VStr s | None => VNone end.

(** [a or b] on [str | None] *)
Definition opt_or (a b : option string) : option string :=
  if opt_truthy a then a else b.

(** [v == s] for a string literal [s] *)
Definition eq_str (v : value) (s : string) : bool :=
  match v with VStr t => String.eqb t s | _ => false end.

(** [o.get(k, dflt)]: only dictionaries have the method *)
Definition py_get (o : value) (k : string) (dflt : value) : result value :=
  match o with
  | VDict d => Val (dict_get_or d k dflt)
  | _ => Exc (AttributeError "get")
  end.

(** [o[k]] for a string key *)
Definition py_getitem (o : value) (k : string) : result value :=
  match o with
  | VDict d => match dict_lookup k d with
               | Some v => Val v
               | None => Exc (KeyError k)
               end
  | _ => Exc (TypeError "indices must be integers")
  end.

Fixpoint chars (s : string) : list string :=
  match s with
  | EmptyString => []
  | String c rest => String c EmptyString :: chars rest
  end.

(** [for x in o]: the items a loop over [o] visits *)
Definition py_iter (o : value) : result (list value) :=
  match o with
  | VList xs => Val xs
  | VDict d => Val (map VStr (dict_keys d))
  | VStr s => Val (map VStr (chars s))
  | _ => Exc (TypeError "object is not iterable")
  end.

(** [len(o)] *)
Definition py_len (o : value) : result Z :=
  match o with
  | VList xs => Val (Z.of_nat (List.length xs))
  | VDict d => Val (Z.of_nat (List.length d))
  | VStr s => Val (Z.of_nat (String.length s))
  | _ => Exc (TypeError "object has no len()")
  end.

(** ** Strings *)

Definition is_upper (c : ascii) : bool :=
  let n := nat_of_ascii c in (Nat.leb 65 n && Nat.leb n 90)%bool.
Definition is_lower (c : ascii) : bool :=
  let n := nat_of_ascii c in (Nat.leb 97 n && Nat.leb n 122)%bool.

Definition lower_char (c : ascii) : ascii :=
  if is_upper c then ascii_of_nat (nat_of_ascii c + 32) else c.
Definition upper_char (c : ascii) : ascii :=
  if is_lower c then ascii_of_nat (nat_of_ascii c - 32) else c.

Fixpoint str_map (f : ascii -> ascii) (s : string) : string :=
  match s with
  | EmptyString => EmptyString
  | String c rest => String (f c) (str_map f rest)
  end.

(** [s.lower()], [s.upper()] *)
Definition lower (s : string) : string := str_map lower_char s.
Definition upper (s : string) : string := str_map upper_char s.

(** [sub in s] *)
Fixpoint contains (sub s : string) : bool :=
  (prefix sub s ||
   match s with
   | EmptyString => false
   | String _ rest => contains sub rest
   end)%bool.

(** [s.startswith(p)] *)
Definition startswith (s p : string) : bool := prefix p s.

(** [sep.join(xs)] *)
Definition join (sep : string) (xs : list string) : string := String.concat sep xs.

Definition is_space (c : ascii) : bool :=
  let n := nat_of_ascii c in
  (Nat.eqb n 32 || (Nat.leb 9 n && Nat.leb n 13) || (Nat.leb 28 n && Nat.leb n 31))%bool.

Fixpoint lstrip (s : string) : string :=
  match s with
  | EmptyString => EmptyString
  | String c rest => if is_space c then lstrip rest else s
  end.

Fixpoint rstrip (s : string) : string :=
  match s with
  | EmptyString => EmptyString
  | String c rest =>
      match rstrip rest with
      | EmptyString => if is_space c then EmptyString else String c EmptyString
      | r => String c r
      end
  end.

(** [s.strip()] *)
Definition strip (s : string) : string := rstrip (lstrip s).

(** [s.split("\n")]: the pieces between line feeds, at least one piece *)
Fixpoint split_lines (s : string) : list string :=
  match s with
  | EmptyString => [EmptyString]
  | String c rest =>
      if Ascii.eqb c "010"%char then EmptyString :: split_lines rest
      else match split_lines rest with
           | [] => [String c EmptyString]
           | piece :: more => String c piece :: more
           end
  end.

(** [str(n)] for an integer *)
Fixpoint digits_of (fuel : nat) (n : N) (acc : string) : string :=
  match fuel with
  | O => acc
  | S f =>
      let d := ascii_of_nat (48 + N.to_nat (N.modulo n 10)) in
      let q := N.div n 10 in
      if N.eqb q 0 then String d acc else digits_of f q (String d acc)
  end.

Definition str_of_int (z : Z) : string :=
  let n := Z.abs_N z in
  let body := digits_of (S (N.to_nat (N.log2 n))) n EmptyString in
  if z <? 0 then String "-"%char body else body.

End Py.
Export Py.

(* ================================================================== *)
(** * The world a call runs in *)
(* ================================================================== *)

Module Sys.

(** A path is its text, taken in normal form (no trailing or doubled
    slash); [p / name] appends a component. *)
Definition Path := string.

Definition path_join (p : Path) (name : string) : Path := p ++ "/" ++ name.

(** The text after the last slash: [p.name] *)
Fixpoint path_name (p : Path) : string :=
  match p with
  | EmptyString => EmptyString
  | String c rest =>
      if contains "/" rest then path_name rest
      else if Ascii.eqb c "/"%char then rest else p
  end.

(** The text before the last slash: [p.parent] *)
Fixpoint path_parent (p : Path) : Path :=
  match p with
  | EmptyString => EmptyString
  | String c rest =>
      if contains "/" rest then String c (path_parent rest)
      else EmptyString
  end.

(** A file carries its text and the ISO rendering of its modification time
    ([datetime.fromtimestamp(st_mtime).isoformat()]); a directory lists the
    names of its entries in the order [iterdir] yields them. *)
Inductive node : Type :=
| File (text : string) (mtime_iso : string)
| Dir (names : list string).

(** What a child process does when it is started with a given command line
    in a given directory: it cannot be started, or it exits after
    [elapsed_ms] milliseconds. *)
Inductive behaviour : Type :=
| FailsToStart (msg : string)
| Exits (returncode : Z) (stdout stderr : string) (elapsed_ms : N).

(** The observable calls, in the order they are made. *)
Inductive syscall : Type :=
| SysExists (p : Path)
| SysIsDir (p : Path)
| SysIterdir (p : Path)
| SysReadText (p : Path)
| SysStat (p : Path)
| SysRun (argv : list string) (dir : Path) (timeout_s : option N)
| SysPopen (argv : list string) (dir : Path)
| SysStderr (line : string)
| SysLogWarning (msg : string).

Record World : Type := mkWorld {
  environ : string -> option string;         (* os.environ *)
  cwd : Path;                                (* Path.cwd() *)
  fs : Path -> option node;                  (* the file system *)
  worktrees : list Path;                     (* git: registered worktrees *)
  branches : list string;                    (* git: local branches *)
  json_loads : string -> option value;       (* json.loads; None: JSONDecodeError *)
  proc : list string -> Path -> behaviour;   (* child processes *)
  next_pid : Z;
  sys_executable : string;                   (* sys.executable *)
  _PARENT_DIR : Path;                        (* Path(__file__).parent.parent *)
  trace : list syscall
}.

Definition with_trace (t : list syscall) (w : World) : World :=
  mkWorld (environ w) (cwd w) (fs w) (worktrees w) (branches w) (json_loads w)
          (proc w) (next_pid w) (sys_executable w) (_PARENT_DIR w) t.

Definition emit (c : syscall) (w : World) : World :=
  with_trace (trace w ++ [c]) w.

(** ** Computations *)

Definition M (A : Type) : Type := World -> result A * World.

Definition ret {A : Type} (a : A) : M A := fun w => (Val a, w).

Definition bind {A B : Type} (m : M A) (k : A -> M B) : M B :=
  fun w => match m w with
           | (Val a, w') => k a w'
           | (Exc e, w') => (Exc e, w')
           end.

Definition raise {A : Type} (e : exn) : M A := fun w => (Exc e, w).

(** A computation that only raises or returns *)
Definition lift {A : Type} (r : result A) : M A := fun w => (r, w).

(** [try: m  except <class>: h]; the handler answers [None] for an exception
    outside its class, which then propagates.  The world keeps what [m] did
    before it raised. *)
Definition try_except {A : Type} (m : M A) (h : exn -> option (M A)) : M A :=
  fun w => match m w with
           | (Val a, w') => (Val a, w')
           | (Exc e, w') => match h e with
                            | Some k => k w'
                            | None => (Exc e, w')
                            end
           end.

(** [except Exception as e] *)
Definition except_Exception {A : Type} (k : exn -> M A) : exn -> option (M A) :=
  fun e => Some (k e).

(** [except json.JSONDecodeError] *)
Definition except_JSONDecodeError {A : Type} (k : M A) : exn -> option (M A) :=
  fun e => match e with JSONDecodeError => Some k | _ => None end.

(** [except (json.JSONDecodeError, OSError)] *)
Definition except_JSONDecodeError_OSError {A : Type} (k : M A) : exn -> option (M A) :=
  fun e => match e with JSONDecodeError | OSError _ => Some k | _ => None end.

(** [except subprocess.TimeoutExpired] *)
Definition except_TimeoutExpired {A : Type} (k : M A) : exn -> option (M A) :=
  fun e => match e with TimeoutExpired => Some k | _ => None end.

(** Two [except] clauses, tried in order *)
Definition or_else {A : Type} (h1 h2 : exn -> option (M A)) : exn -> option (M A) :=
  fun e => match h1 e with Some k => Some k | None => h2 e end.

End Sys.
Export Sys.

Declare Scope py_scope.
Delimit Scope py_scope with py.
Notation "x <- m ;; k" := (bind m (fun x => k))
  (at level 61, m at next level, right associativity) : py_scope.
Notation "x <~ r ;; k" := (rbind r (fun x => k))
  (at level 61, r at next level, right associativity) : py_scope.
Notation "m ;;; k" := (bind m (fun _ => k))
  (at level 61, right associativity) : py_scope.
Notation "p / name" := (path_join p name) : py_scope.
Local Open Scope py_scope.

(* ================================================================== *)
(** * Operating-system primitives *)
(* ================================================================== *)

Module Os.

(** [os.environ.get(name)] *)
Definition os_environ_get (name : string) : M (option string) :=
  fun w => (Val (environ w name), w).

(** [Path.cwd()] *)
Definition Path_cwd : M Path := fun w => (Val (cwd w), w).

(** [p.exists()] *)
Definition exists_ (p : Path) : M bool :=
  fun w => (Val (match fs w p with Some _ => true | None => false end),
            emit (SysExists p) w).

(** [p.is_dir()] *)
Definition is_dir (p : Path) : M bool :=
  fun w => (Val (match fs w p with Some (Dir _) => true | _ => false end),
            emit (SysIsDir p) w).

(** [p.iterdir()] *)
Definition iterdir (p : Path) : M (list Path) :=
  fun w => (match fs w p with
            | Some (Dir names) => Val (map (path_join p) names)
            | Some (File _ _) => Exc (OSError "Not a directory")
            | None => Exc (OSError "No such file or directory")
            end,
            emit (SysIterdir p) w).

(** [p.read_text()] *)
Definition read_text (p : Path) : M string :=
  fun w => (match fs w p with
            | Some (File text _) => Val text
            | Some (Dir _) => Exc (OSError "Is a directory")
            | None => Exc (OSError "No such file or directory")
            end,
            emit (SysReadText p) w).

(** [datetime.fromtimestamp(p.stat().st_mtime).isoformat()] *)
Definition stat_mtime_iso (p : Path) : M string :=
  fun w => (match fs w p with
            | Some (File _ iso) => Val iso
            | Some (Dir _) => Val EmptyString
            | None => Exc (OSError "No such file or directory")
            end,
            emit (SysStat p) w).

(** [json.loads(text)] *)
Definition json_loads_ (text : string) : M value :=
  fun w => (match json_loads w text with
            | Some v => Val v
            | None => Exc JSONDecodeError
            end, w).

(** [print(line, file=sys.stderr)] *)
Definition print_stderr (line : string) : M unit :=
  fun w => (Val tt, emit (SysStderr line) w).

(** [logging.warning(msg)] *)
Definition logging_warning (msg : string) : M unit :=
  fun w => (Val tt, emit (SysLogWarning msg) w).

End Os.
Export Os.

(* ================================================================== *)
(** * phase_config.py *)
(* ================================================================== *)

Module PhaseConfig.

(** Default model IDs for shorthands *)
Definition DEFAULT_MODEL_IDS : list (string * string) :=
  [ ("opus", "claude-opus-4-5-20251101");
    ("sonnet", "claude-sonnet-4-5-20250929");
    ("haiku", "claude-haiku-4-5-20251001") ].

Definition common_ids : list string :=
  [ "claude-3-5-sonnet-latest"; "claude-3-5-sonnet-20241022";
    "claude-sonnet-4-5-latest"; "claude-sonnet-4-5-20250929";
    "claude-3-5-haiku-latest"; "claude-3-5-haiku-20241022";
    "claude-haiku-4-5-latest"; "claude-haiku-4-5-20251001";
    "claude-3-opus-latest"; "claude-3-opus-20240229";
    "claude-opus-4-5-latest"; "claude-opus-4-5-20251101";
    "claude-3-sonnet-20240229"; "claude-3-haiku-20240307" ].

(** [os.environ.get("AUTO_BUILD_MODEL") or os.environ.get("ANTHROPIC_MODEL")] *)
Definition primary_model_env : M (option string) :=
  a <- os_environ_get "AUTO_BUILD_MODEL" ;;
  if opt_truthy a then ret a else os_environ_get "ANTHROPIC_MODEL".

(** [for cid in ids: if sel(cid): mapping[cid] = target] *)
Definition redirect (sel : string -> bool) (target : string) (ids : list string)
           (mapping : list (string * string)) : list (string * string) :=
  fold_left (fun mp cid => if sel cid then dict_set cid target mp else mp) ids mapping.

Definition get_model_id_map : M (list (string * string)) :=
  primary_model <- primary_model_env ;;
  f <- os_environ_get "ANTHROPIC_SMALL_FAST_MODEL" ;;
  let fast_model := opt_or f primary_model in
  let mapping := DEFAULT_MODEL_IDS in
  let mapping :=
    match primary_model with
    | Some p =>
        if str_truthy p then
          redirect (fun cid => negb (contains "haiku" cid)) p common_ids
                   (dict_set "opus" p (dict_set "sonnet" p mapping))
        else mapping
    | None => mapping
    end in
  let mapping :=
    match fast_model with
    | Some q =>
        if str_truthy q then
          redirect (fun cid => contains "haiku" cid) q common_ids
                   (dict_set "haiku" q mapping)
        else mapping
    | None => mapping
    end in
  ret mapping.

(** Thinking level to budget tokens mapping ([None]: no extended thinking) *)
Definition THINKING_BUDGET_MAP : list (string * option Z) :=
  [ ("none", None);
    ("low", Some 1024);
    ("medium", Some 4096);
    ("high", Some 16384);
    ("ultrathink", Some 65536) ].

Inductive Phase : Type := spec | planning | coding | qa.

Definition phase_key (p : Phase) : string :=
  match p with
  | spec => "spec" | planning => "planning" | coding => "coding" | qa => "qa"
  end.

(** [DEFAULT_PHASE_MODELS[phase]] *)
Definition DEFAULT_PHASE_MODELS (p : Phase) : string :=
  match p with
  | spec => "sonnet" | planning => "opus" | coding => "sonnet" | qa => "sonnet"
  end.

(** [DEFAULT_PHASE_THINKING[phase]] *)
Definition DEFAULT_PHASE_THINKING (p : Phase) : string :=
  match p with
  | spec => "medium" | planning => "high" | coding => "medium" | qa => "high"
  end.

(** The argument is annotated [str]; a value read from the metadata file may
    be anything, and only a string has [lower]. *)
Definition resolve_model_id (model_id : value) : M string :=
  if negb (truthy model_id) then ret EmptyString
  else
    mapping <- get_model_id_map ;;
    match model_id with
    | VStr s =>
        let resolved := dict_get_or mapping (lower s) s in
        (if negb (String.eqb resolved s)
         then print_stderr (" [DEBUG] Redirected model: " ++ s ++ " -> " ++ resolved)
         else ret tt) ;;;
        ret resolved
    | _ => raise (AttributeError "lower")
    end.

Definition invalid_level_message (thinking_level : string) : string :=
  "Invalid thinking_level '" ++ thinking_level ++ "'. Valid values: "
  ++ join ", " (dict_keys THINKING_BUDGET_MAP) ++ ". Defaulting to 'medium'.".

Definition get_thinking_budget (thinking_level : string) : M (option Z) :=
  if negb (dict_mem thinking_level THINKING_BUDGET_MAP) then
    logging_warning (invalid_level_message thinking_level) ;;;
    ret (dict_get_or THINKING_BUDGET_MAP "medium" None)
  else ret (dict_get_or THINKING_BUDGET_MAP thinking_level None).

(** Returns the parsed file, or [VNone] when it is missing or unreadable. *)
Definition load_task_metadata (spec_dir : Path) : M value :=
  let metadata_path := spec_dir / "task_metadata.json" in
  e <- exists_ metadata_path ;;
  if negb e then ret VNone
  else
    try_except
      (text <- read_text metadata_path ;; json_loads_ text)
      (except_JSONDecodeError_OSError (ret VNone)).

Definition get_phase_model (spec_dir : Path) (phase : Phase)
           (cli_model : option string) : M string :=
  env_model <- primary_model_env ;;
  if opt_truthy env_model then resolve_model_id (opt_value env_model)
  else if opt_truthy cli_model then resolve_model_id (opt_value cli_model)
  else
    metadata <- load_task_metadata spec_dir ;;
    let fallback := resolve_model_id (VStr (DEFAULT_PHASE_MODELS phase)) in
    if truthy metadata then
      auto <- lift (py_get metadata "isAutoProfile" VNone) ;;
      has_map <- (if truthy auto
                  then pm <- lift (py_get metadata "phaseModels" VNone) ;; ret (truthy pm)
                  else ret false) ;;
      if has_map then
        phase_models <- lift (py_getitem metadata "phaseModels") ;;
        model <- lift (py_get phase_models (phase_key phase)
                              (VStr (DEFAULT_PHASE_MODELS phase))) ;;
        resolve_model_id model
      else
        single <- lift (py_get metadata "model" VNone) ;;
        if truthy single then
          model <- lift (py_getitem metadata "model") ;;
          resolve_model_id model
        else fallback
    else fallback.

Definition get_phase_thinking (spec_dir : Path) (phase : Phase)
           (cli_thinking : option string) : M value :=
  if opt_truthy cli_thinking then ret (opt_value cli_thinking)
  else
    metadata <- load_task_metadata spec_dir ;;
    let fallback := ret (VStr (DEFAULT_PHASE_THINKING phase)) in
    if truthy metadata then
      auto <- lift (py_get metadata "isAutoProfile" VNone) ;;
      has_map <- (if truthy auto
                  then pt <- lift (py_get metadata "phaseThinking" VNone) ;; ret (truthy pt)
                  else ret false) ;;
      if has_map then
        phase_thinking <- lift (py_getitem metadata "phaseThinking") ;;
        lift (py_get phase_thinking (phase_key phase)
                     (VStr (DEFAULT_PHASE_THINKING phase)))
      else
        single <- lift (py_get metadata "thinkingLevel" VNone) ;;
        if truthy single then lift (py_getitem metadata "thinkingLevel")
        else fallback
    else fallback.

End PhaseConfig.
Export PhaseConfig.

(* ================================================================== *)
(** * Child processes and version control *)
(* ================================================================== *)

Module Subprocess.

Record CompletedProcess : Type := mkCompleted {
  returncode : Z;
  stdout : string;
  stderr : string
}.

Definition with_repo (f : Path -> option node) (wts : list Path) (brs : list string)
           (w : World) : World :=
  mkWorld (environ w) (cwd w) f wts brs (json_loads w) (proc w) (next_pid w)
          (sys_executable w) (_PARENT_DIR w) (trace w).

Definition with_next_pid (n : Z) (w : World) : World :=
  mkWorld (environ w) (cwd w) (fs w) (worktrees w) (branches w) (json_loads w)
          (proc w) n (sys_executable w) (_PARENT_DIR w) (trace w).

Definition remove_str (x : string) (xs : list string) : list string :=
  filter (fun y => negb (String.eqb y x)) xs.

(** The file system without the directory [p], what lies below it, and its
    entry in the parent directory. *)
Definition remove_tree (p : Path) (f : Path -> option node) : Path -> option node :=
  fun q =>
    if (String.eqb q p || prefix (p ++ "/") q)%bool then None
    else match f q with
         | Some (Dir names) =>
             if String.eqb q (path_parent p)
             then Some (Dir (remove_str (path_name p) names))
             else Some (Dir names)
         | other => other
         end.

(** What a successful command changes.  [git worktree remove --force p]
    unregisters the worktree and deletes its directory; [git branch -D b]
    deletes the branch.  The effects of other commands on the repository are
    outside the model. *)
Definition git_effect (argv : list string) (w : World) : World :=
  match argv with
  | [a0; a1; a2; a3; p] =>
      if (String.eqb a0 "git" && String.eqb a1 "worktree"
          && String.eqb a2 "remove" && String.eqb a3 "--force")%bool
      then with_repo (remove_tree p (fs w)) (remove_str p (worktrees w)) (branches w) w
      else w
  | [a0; a1; a2; b] =>
      if (String.eqb a0 "git" && String.eqb a1 "branch" && String.eqb a2 "-D")%bool
      then with_repo (fs w) (worktrees w) (remove_str b (branches w)) w
      else w
  | _ => w
  end.

Definition timed_out (timeout_s : option N) (elapsed_ms : N) : bool :=
  match timeout_s with
  | Some s => N.ltb (s * 1000) elapsed_ms
  | None => false
  end.

(** [subprocess.run(argv, cwd=dir, capture_output=True, timeout=...)]: no
    [check=True], so a non-zero exit status is returned, not raised. *)
Definition subprocess_run (argv : list string) (dir : Path) (timeout_s : option N)
  : M CompletedProcess :=
  fun w =>
    let w1 := emit (SysRun argv dir timeout_s) w in
    match proc w argv dir with
    | FailsToStart msg => (Exc (OSError msg), w1)
    | Exits rc out err ms =>
        if timed_out timeout_s ms then (Exc TimeoutExpired, w1)
        else (Val (mkCompleted rc out err),
              if rc =? 0 then git_effect argv w1 else w1)
    end.

(** [subprocess.Popen(argv, cwd=dir, ..., start_new_session=True).pid] *)
Definition subprocess_Popen (argv : list string) (dir : Path) : M Z :=
  fun w =>
    let w1 := emit (SysPopen argv dir) w in
    match proc w argv dir with
    | FailsToStart msg => (Exc (OSError msg), w1)
    | Exits _ _ _ _ => (Val (next_pid w), with_next_pid (next_pid w + 1) w1)
    end.

End Subprocess.
Export Subprocess.

(* ================================================================== *)
(** * mcp/tools.py: helpers and status derivation *)
(* ================================================================== *)

Module Tools.

(** [for x in xs: s = body(s, x)] *)
Fixpoint for_each {A S : Type} (xs : list A) (body : S -> A -> M S) (s : S) : M S :=
  match xs with
  | [] => ret s
  | x :: rest => s' <- body s x ;; for_each rest body s'
  end.

Definition opt_str (o : option string) : string :=
  match o with Some s => s | None => EmptyString end.

Definition _get_project_dir (project_dir : option string) : M Path :=
  if opt_truthy project_dir then ret (opt_str project_dir)
  else
    env_dir <- os_environ_get "AUTO_CLAUDE_PROJECT_DIR" ;;
    if opt_truthy env_dir then ret (opt_str env_dir)
    else Path_cwd.

Definition _get_specs_dir (project_dir : Path) : Path :=
  project_dir / ".auto-claude" / "specs".

Definition worktrees_root (proj_dir : Path) : Path :=
  proj_dir / ".auto-claude-worktrees".

(** The loop of [_find_spec] over the entries of the specs directory *)
Fixpoint _find_spec_loop (spec_id : string) (entries : list Path) : M (option Path) :=
  match entries with
  | [] => ret None
  | spec_dir :: rest =>
      d <- is_dir spec_dir ;;
      if (d && (String.eqb (path_name spec_dir) spec_id
                || startswith (path_name spec_dir) (spec_id ++ "-")))%bool
      then ret (Some spec_dir)
      else _find_spec_loop spec_id rest
  end.

Definition _find_spec (project_dir : Path) (spec_id : string) : M (option Path) :=
  let specs_dir := _get_specs_dir project_dir in
  e <- exists_ specs_dir ;;
  if negb e then ret None
  else
    entries <- iterdir specs_dir ;;
    _find_spec_loop spec_id entries.

(** Returns the parsed plan, or [VNone]. *)
Definition _load_implementation_plan (spec_dir : Path) : M value :=
  let plan_file := spec_dir / "implementation_plan.json" in
  e <- exists_ plan_file ;;
  if e then
    try_except
      (text <- read_text plan_file ;; json_loads_ text)
      (except_JSONDecodeError (ret VNone))
  else ret VNone.

(** The dictionary [counts] of [_get_subtask_counts], with its five fixed keys *)
Record Counts : Type := mkCounts {
  completed : Z;
  in_progress : Z;
  pending : Z;
  stuck : Z;
  total : Z
}.

Definition counts_zero : Counts := mkCounts 0 0 0 0 0.

Definition counts_value (c : Counts) : value :=
  VDict [ ("completed", VInt (completed c));
          ("in_progress", VInt (in_progress c));
          ("pending", VInt (pending c));
          ("stuck", VInt (stuck c));
          ("total", VInt (total c)) ].

(** The body of the inner loop of [_get_subtask_counts] *)
Definition count_subtask (counts : Counts) (subtask : value) : result Counts :=
  status <~ py_get subtask "status" (VStr "pending") ;;
  let t := total counts + 1 in
  if eq_str status "complete" then
    Val (mkCounts (completed counts + 1) (in_progress counts) (pending counts) (stuck counts) t)
  else if eq_str status "in_progress" then
    Val (mkCounts (completed counts) (in_progress counts + 1) (pending counts) (stuck counts) t)
  else if eq_str status "stuck" then
    Val (mkCounts (completed counts) (in_progress counts) (pending counts) (stuck counts + 1) t)
  else
    Val (mkCounts (completed counts) (in_progress counts) (pending counts + 1) (stuck counts) t).

(** The body of the outer loop of [_get_subtask_counts] *)
Definition count_phase (counts : Counts) (phase : value) : result Counts :=
  subtasks <~ py_get phase "subtasks" (VList []) ;;
  items <~ py_iter subtasks ;;
  rfor_each items count_subtask counts.

(** Reads no file and no variable: it computes from [plan], or raises. *)
Definition _get_subtask_counts (plan : value) : result Counts :=
  phases <~ py_get plan "phases" (VList []) ;;
  items <~ py_iter phases ;;
  rfor_each items count_phase counts_zero.

Definition _get_spec_overall_status (spec_dir : Path) (plan : value) : M string :=
  match plan with
  | VNone => ret "pending"
  | _ =>
      counts <- lift (_get_subtask_counts plan) ;;
      if total counts =? 0 then ret "pending"
      else if completed counts =? total counts then
        let qa_report := spec_dir / "qa_report.md" in
        e <- exists_ qa_report ;;
        if e then ret "qa_complete" else ret "complete"
      else if in_progress counts >? 0 then ret "in_progress"
      else if stuck counts >? 0 then ret "stuck"
      else ret "pending"
  end.

(** [f"Spec '{spec_id}' not found"] *)
Definition not_found_message (spec_id : string) : string :=
  "Spec '" ++ spec_id ++ "' not found".

End Tools.
Export Tools.

(* ================================================================== *)
(** * mcp/tools.py: query tools *)
(* ================================================================== *)

Module Query.

(** The result for an unknown spec, as the query tools build it *)
Definition not_found_query (spec_id : string) : value :=
  VDict [ ("error", VStr (not_found_message spec_id)); ("found", VBool false) ].

(** [get_spec_status], "Load review state": the pair (approved, approved_by) *)
Definition load_review_state (spec_dir : Path) : M (value * value) :=
  let review_file := spec_dir / "review_state.json" in
  e <- exists_ review_file ;;
  if e then
    try_except
      (text <- read_text review_file ;;
       review_state <- json_loads_ text ;;
       approved <- lift (py_get review_state "approved" (VBool false)) ;;
       approved_by <- lift (py_get review_state "approved_by" VNone) ;;
       ret (approved, approved_by))
      (except_JSONDecodeError (ret (VBool false, VNone)))
  else ret (VBool false, VNone).

(** [sum(1 for s in phase_subtasks if s.get("status") == "complete")] *)
Fixpoint count_complete (phase_subtasks : list value) : result Z :=
  match phase_subtasks with
  | [] => Val 0
  | s :: rest =>
      status <~ py_get s "status" VNone ;;
      n <~ count_complete rest ;;
      Val ((if eq_str status "complete" then 1 else 0) + n)
  end.

(** ["complete" if phase_completed == len(phase_subtasks)
     else "in_progress" if phase_completed > 0 else "pending"] *)
Definition phase_status (phase_completed len : Z) : string :=
  if phase_completed =? len then "complete"
  else if phase_completed >? 0 then "in_progress"
  else "pending".

(** "Find current subtask": the loop stops at the first subtask in progress *)
Fixpoint find_current (phase_subtasks : list value) (current_subtask : value)
  : result value :=
  match phase_subtasks with
  | [] => Val current_subtask
  | subtask :: rest =>
      status <~ py_get subtask "status" VNone ;;
      if eq_str status "in_progress" then
        id <~ py_get subtask "id" VNone ;;
        description <~ py_get subtask "description" VNone ;;
        attempts <~ py_get subtask "attempts" (VInt 1) ;;
        Val (VDict [ ("id", id); ("description", description); ("attempts", attempts) ])
      else find_current rest current_subtask
  end.

(** The body of the loop over the phases in [get_spec_status]; the state is
    the list [phases] and [current_subtask]. *)
Definition phase_info (acc : list value * value) (phase : value)
  : result (list value * value) :=
  let '(phases, current_subtask) := acc in
  phase_subtasks <~ py_get phase "subtasks" (VList []) ;;
  items <~ py_iter phase_subtasks ;;
  phase_completed <~ count_complete items ;;
  n <~ py_len phase_subtasks ;;
  let status := phase_status phase_completed n in
  name <~ py_get phase "name" (VStr "Unknown") ;;
  let entry := VDict [ ("name", name);
                       ("status", VStr status);
                       ("subtasks", VInt n);
                       ("completed", VInt phase_completed) ] in
  current <~ find_current items current_subtask ;;
  Val ((phases ++ [entry])%list, current).

(** "Get phases info": the list [phases] and [current_subtask] *)
Definition phases_info (plan : value) : result (list value * value) :=
  if truthy plan then
    phases <~ py_get plan "phases" (VList []) ;;
    items <~ py_iter phases ;;
    rfor_each items phase_info ([], VNone)
  else Val ([], VNone).

Definition get_spec_status (spec_id : string) (project_dir : option string) : M value :=
  proj_dir <- _get_project_dir project_dir ;;
  found <- _find_spec proj_dir spec_id ;;
  match found with
  | None => ret (not_found_query spec_id)
  | Some spec_dir =>
      plan <- _load_implementation_plan spec_dir ;;
      status <- _get_spec_overall_status spec_dir plan ;;
      review <- load_review_state spec_dir ;;
      info <- lift (phases_info plan) ;;
      counts <- lift (if truthy plan then _get_subtask_counts plan else Val counts_zero) ;;
      let worktree_dir := worktrees_root proj_dir / path_name spec_dir in
      e <- exists_ worktree_dir ;;
      ret (VDict [ ("id", VStr (path_name spec_dir));
                   ("found", VBool true);
                   ("status", VStr status);
                   ("approved", fst review);
                   ("approved_by", snd review);
                   ("phases", VList (fst info));
                   ("subtasks", counts_value counts);
                   ("current_subtask", snd info);
                   ("worktree_path", if e then VStr worktree_dir else VNone) ])
  end.

(** The check-mark glyph U+2705, as its three UTF-8 bytes *)
Definition check_mark : string :=
  String (ascii_of_nat 226) (String (ascii_of_nat 156)
    (String (ascii_of_nat 133) EmptyString)).

(** The markdown branch of [get_qa_status] *)
Definition qa_from_report (qa_report : Path) (result : list (string * value))
  : M (list (string * value)) :=
  let result := dict_set "qa_run" (VBool true) result in
  content <- read_text qa_report ;;
  let result :=
    dict_set "passed"
             (VBool (contains check_mark content || contains "PASSED" (upper content)))
             result in
  iso <- stat_mtime_iso qa_report ;;
  ret (dict_set "last_run" (VStr iso) result).

(** The JSON branch of [get_qa_status].  Only [json.loads] can raise the
    exception the handler catches, and it does so before [result] is
    touched. *)
Definition qa_from_state (qa_state : Path) (result : list (string * value))
  : M (list (string * value)) :=
  try_except
    (text <- read_text qa_state ;;
     state <- json_loads_ text ;;
     let result := dict_set "qa_run" (VBool true) result in
     passed <- lift (py_get state "passed" (VBool false)) ;;
     let result := dict_set "passed" passed result in
     issues <- lift (py_get state "issues" (VList [])) ;;
     let result := dict_set "issues" issues result in
     last_run <- lift (py_get state "last_run" VNone) ;;
     ret (dict_set "last_run" last_run result))
    (except_JSONDecodeError (ret result)).

Definition get_qa_status (spec_id : string) (project_dir : option string) : M value :=
  proj_dir <- _get_project_dir project_dir ;;
  found <- _find_spec proj_dir spec_id ;;
  match found with
  | None => ret (not_found_query spec_id)
  | Some spec_dir =>
      let qa_report := spec_dir / "qa_report.md" in
      let qa_state := spec_dir / "qa_state.json" in
      let result := [ ("spec_id", VStr (path_name spec_dir));
                      ("found", VBool true);
                      ("qa_run", VBool false);
                      ("passed", VBool false);
                      ("issues", VList []);
                      ("last_run", VNone) ] in
      has_state <- exists_ qa_state ;;
      if has_state then
        result <- qa_from_state qa_state result ;; ret (VDict result)
      else
        has_report <- exists_ qa_report ;;
        if has_report then
          result <- qa_from_report qa_report result ;; ret (VDict result)
        else ret (VDict result)
  end.

(** [[x for x in text.strip().split("\n") if x]] *)
Definition nonempty_lines (text : string) : list value :=
  map VStr (filter str_truthy (split_lines (strip text))).

(** One best-effort git listing of [review_build]: on exit status 0 the
    lines go under [key]; any exception is swallowed. *)
Definition review_listing (argv : list string) (key : string) (worktree_dir : Path)
           (result : list (string * value)) : M (list (string * value)) :=
  try_except
    (cp <- subprocess_run argv worktree_dir None ;;
     if returncode cp =? 0
     then ret (dict_set key (VList (nonempty_lines (stdout cp))) result)
     else ret result)
    (except_Exception (fun _ => ret result)).

Definition review_build (spec_id : string) (project_dir : option string) : M value :=
  proj_dir <- _get_project_dir project_dir ;;
  found <- _find_spec proj_dir spec_id ;;
  match found with
  | None => ret (not_found_query spec_id)
  | Some spec_dir =>
      let worktree_dir := worktrees_root proj_dir / path_name spec_dir in
      has_worktree <- exists_ worktree_dir ;;
      let result := [ ("spec_id", VStr (path_name spec_dir));
                      ("found", VBool true);
                      ("has_worktree", VBool has_worktree);
                      ("files_changed", VList []);
                      ("commits", VList []) ] in
      e <- exists_ worktree_dir ;;
      if negb e then ret (VDict result)
      else
        result <- review_listing ["git"; "diff"; "--name-only"; "HEAD~5..HEAD"]
                                 "files_changed" worktree_dir result ;;
        result <- review_listing ["git"; "log"; "--oneline"; "-5"]
                                 "commits" worktree_dir result ;;
        ret (VDict result)
  end.

(** The dry-run merge of [merge_preview] *)
Definition preview_merge (worktree_dir : Path) (result : list (string * value))
  : M (list (string * value)) :=
  try_except
    (branch_result <- subprocess_run ["git"; "branch"; "--show-current"] worktree_dir None ;;
     let branch := if returncode branch_result =? 0
                   then VStr (strip (stdout branch_result)) else VNone in
     if truthy branch then
       merge_result <- subprocess_run
                         ["git"; "merge"; "--no-commit"; "--no-ff"; "main"; "--dry-run"]
                         worktree_dir None ;;
       if negb (returncode merge_result =? 0) then
         ret (dict_set "conflicts"
                       (VList (map VStr (split_lines (strip (stderr merge_result)))))
                       (dict_set "can_merge" (VBool false) result))
       else ret result
     else ret result)
    (except_Exception (fun e => ret (dict_set "error" (VStr (exn_str e)) result))).

Definition merge_preview (spec_id : string) (project_dir : option string) : M value :=
  proj_dir <- _get_project_dir project_dir ;;
  found <- _find_spec proj_dir spec_id ;;
  match found with
  | None => ret (not_found_query spec_id)
  | Some spec_dir =>
      let worktree_dir := worktrees_root proj_dir / path_name spec_dir in
      e <- exists_ worktree_dir ;;
      if negb e then
        ret (VDict [ ("spec_id", VStr (path_name spec_dir));
                     ("found", VBool true);
                     ("has_worktree", VBool false);
                     ("can_merge", VBool false);
                     ("message", VStr "No worktree found for this spec") ])
      else
        let result := [ ("spec_id", VStr (path_name spec_dir));
                        ("found", VBool true);
                        ("has_worktree", VBool true);
                        ("can_merge", VBool true);
                        ("conflicts", VList []);
                        ("files_to_merge", VList []) ] in
        result <- preview_merge worktree_dir result ;;
        ret (VDict result)
  end.

End Query.
Export Query.

(* ================================================================== *)
(** * mcp/tools.py: action tools *)
(* ================================================================== *)

Module Action.

(** The result for an unknown spec, as the action tools build it *)
Definition not_found_action (spec_id : string) : value :=
  VDict [ ("error", VStr (not_found_message spec_id)); ("status", VStr "error") ].

(** [[sys.executable, str(_PARENT_DIR / "run.py"), "--spec", name,
      "--project-dir", str(proj_dir)]] *)
Definition run_py (w : World) (spec_dir proj_dir : Path) : list string :=
  [ sys_executable w; _PARENT_DIR w / "run.py";
    "--spec"; path_name spec_dir; "--project-dir"; proj_dir ].

Definition get_run_py (spec_dir proj_dir : Path) : M (list string) :=
  fun w => (Val (run_py w spec_dir proj_dir), w).

(** [subprocess.Popen(cmd, cwd=proj_dir, ...)] inside [try], with the two
    results of the job launchers *)
Definition launch (cmd : list string) (proj_dir : Path)
           (started : Z -> value) : M value :=
  try_except
    (pid <- subprocess_Popen cmd proj_dir ;; ret (started pid))
    (except_Exception
       (fun e => ret (VDict [ ("status", VStr "error"); ("error", VStr (exn_str e)) ]))).

Definition run_build (spec_id : string) (project_dir : option string)
           (model : option string) (max_iterations : option Z) (mode : string)
           (auto_continue skip_qa : bool) : M value :=
  proj_dir <- _get_project_dir project_dir ;;
  found <- _find_spec proj_dir spec_id ;;
  match found with
  | None => ret (not_found_action spec_id)
  | Some spec_dir =>
      base <- get_run_py spec_dir proj_dir ;;
      let cmd := (base ++ [ if auto_continue then "--auto-continue" else EmptyString ])%list in
      let cmd := if String.eqb mode "isolated" then (cmd ++ ["--isolated"])%list
                 else if String.eqb mode "direct" then (cmd ++ ["--direct"])%list
                 else cmd in
      let cmd := if opt_truthy model then (cmd ++ ["--model"; opt_str model])%list
                 else cmd in
      let cmd := match max_iterations with
                 | Some n => if negb (n =? 0)
                             then (cmd ++ ["--max-iterations"; str_of_int n])%list
                             else cmd
                 | None => cmd
                 end in
      let cmd := if skip_qa then (cmd ++ ["--skip-qa"])%list else cmd in
      let cmd := filter str_truthy cmd in
      launch cmd proj_dir
             (fun pid =>
                VDict [ ("status", VStr "started");
                        ("spec_id", VStr (path_name spec_dir));
                        ("pid", VInt pid);
                        ("mode", VStr mode);
                        ("message", VStr ("Build started for " ++ path_name spec_dir
                                          ++ ". Use get_spec_status to monitor.")) ])
  end.

Definition run_qa (spec_id : string) (project_dir : option string) : M value :=
  proj_dir <- _get_project_dir project_dir ;;
  found <- _find_spec proj_dir spec_id ;;
  match found with
  | None => ret (not_found_action spec_id)
  | Some spec_dir =>
      base <- get_run_py spec_dir proj_dir ;;
      launch (base ++ ["--qa"])%list proj_dir
             (fun pid =>
                VDict [ ("status", VStr "started");
                        ("spec_id", VStr (path_name spec_dir));
                        ("pid", VInt pid);
                        ("message", VStr ("QA validation started for "
                                          ++ path_name spec_dir)) ])
  end.

Definition run_followup (spec_id : string) (project_dir : option string) : M value :=
  proj_dir <- _get_project_dir project_dir ;;
  found <- _find_spec proj_dir spec_id ;;
  match found with
  | None => ret (not_found_action spec_id)
  | Some spec_dir =>
      base <- get_run_py spec_dir proj_dir ;;
      launch (base ++ ["--followup"])%list proj_dir
             (fun pid =>
                VDict [ ("status", VStr "started");
                        ("spec_id", VStr (path_name spec_dir));
                        ("pid", VInt pid);
                        ("message", VStr ("Followup planner started for "
                                          ++ path_name spec_dir)) ])
  end.

(** The three results of [merge_build] once the spec is found *)
Definition merge_completed (spec_dir : Path) (result : CompletedProcess) : value :=
  VDict [ ("status", VStr (if returncode result =? 0 then "success" else "error"));
          ("spec_id", VStr (path_name spec_dir));
          ("output", VStr (stdout result));
          ("error", if negb (returncode result =? 0)
                    then VStr (stderr result) else VNone) ].

Definition merge_timed_out : value :=
  VDict [ ("status", VStr "error"); ("error", VStr "Merge timed out") ].

Definition merge_failed (e : exn) : value :=
  VDict [ ("status", VStr "error"); ("error", VStr (exn_str e)) ].

(** [cmd] of [merge_build]: the common prefix, [--merge], and
    [--no-commit] on request *)
Definition merge_command (base : list string) (no_commit : bool) : list string :=
  let cmd := (base ++ ["--merge"])%list in
  if no_commit then (cmd ++ ["--no-commit"])%list else cmd.

(** The ceiling of the synchronous merge, in seconds *)
Definition merge_timeout : N := 60.

Definition merge_build (spec_id : string) (project_dir : option string)
           (no_commit : bool) : M value :=
  proj_dir <- _get_project_dir project_dir ;;
  found <- _find_spec proj_dir spec_id ;;
  match found with
  | None => ret (not_found_action spec_id)
  | Some spec_dir =>
      base <- get_run_py spec_dir proj_dir ;;
      let cmd := merge_command base no_commit in
      try_except
        (result <- subprocess_run cmd proj_dir (Some merge_timeout) ;;
         ret (merge_completed spec_dir result))
        (or_else (except_TimeoutExpired (ret merge_timed_out))
                 (except_Exception (fun e => ret (merge_failed e))))
  end.

Definition blocked_discard : value :=
  VDict [ ("status", VStr "blocked");
          ("message", VStr "Set confirm=True to actually discard the build. This action is irreversible.") ].

Definition blocked_cleanup : value :=
  VDict [ ("status", VStr "blocked");
          ("message", VStr "Set confirm=True to cleanup all worktrees. This action is irreversible.") ].

(** [confirm: bool = False]: the value of the parameter in a call that
    leaves it out, for [discard_build] and [cleanup_worktrees] alike *)
Definition confirm_default : bool := false.

Definition discard_build (spec_id : string) (project_dir : option string)
           (confirm : bool) : M value :=
  if negb confirm then ret blocked_discard
  else
    proj_dir <- _get_project_dir project_dir ;;
    found <- _find_spec proj_dir spec_id ;;
    match found with
    | None => ret (not_found_action spec_id)
    | Some spec_dir =>
        let worktree_dir := worktrees_root proj_dir / path_name spec_dir in
        e <- exists_ worktree_dir ;;
        if negb e then
          ret (VDict [ ("status", VStr "error");
                       ("message", VStr "No worktree found to discard") ])
        else
          try_except
            (subprocess_run ["git"; "worktree"; "remove"; "--force"; worktree_dir]
                            proj_dir None ;;;
             let branch_name := "auto-claude/" ++ path_name spec_dir in
             subprocess_run ["git"; "branch"; "-D"; branch_name] proj_dir None ;;;
             ret (VDict [ ("status", VStr "success");
                          ("spec_id", VStr (path_name spec_dir));
                          ("message", VStr ("Build for " ++ path_name spec_dir
                                            ++ " has been discarded")) ]))
            (except_Exception
               (fun e => ret (VDict [ ("status", VStr "error");
                                      ("error", VStr (exn_str e)) ])))
    end.

(** The body of the loop of [cleanup_worktrees]; the state is the pair of
    lists [removed] and [errors]. *)
Definition cleanup_one (proj_dir : Path) (acc : list value * list value) (wt_dir : Path)
  : M (list value * list value) :=
  let '(removed, errors) := acc in
  d <- is_dir wt_dir ;;
  if negb d then ret (removed, errors)
  else
    try_except
      (subprocess_run ["git"; "worktree"; "remove"; "--force"; wt_dir] proj_dir None ;;;
       ret ((removed ++ [VStr (path_name wt_dir)])%list, errors))
      (except_Exception
         (fun e => ret (removed,
                        (errors ++ [VDict [ ("worktree", VStr (path_name wt_dir));
                                            ("error", VStr (exn_str e)) ]])%list))).

Definition cleanup_worktrees (project_dir : option string) (confirm : bool) : M value :=
  if negb confirm then ret blocked_cleanup
  else
    proj_dir <- _get_project_dir project_dir ;;
    let worktrees_dir := worktrees_root proj_dir in
    e <- exists_ worktrees_dir ;;
    if negb e then
      ret (VDict [ ("status", VStr "success");
                   ("message", VStr "No worktrees to cleanup");
                   ("removed", VInt 0) ])
    else
      entries <- iterdir worktrees_dir ;;
      acc <- for_each entries (cleanup_one proj_dir) ([], []) ;;
      let '(removed, errors) := acc in
      ret (VDict [ ("status", VStr (match errors with [] => "success" | _ => "partial" end));
                   ("removed", VList removed);
                   ("removed_count", VInt (Z.of_nat (List.length removed)));
                   ("errors", match errors with [] => VNone | _ => VList errors end) ]).

End Action.
Export Action.

(* ================================================================== *)
(** * A sample project *)
(* ================================================================== *)

Module Sample.

(** Three specs under [/proj]:
    - [001-login]: one phase with a subtask in progress and a pending one;
      an unparseable [qa_state.json] next to a [qa_report.md] that says
      PASSED; it has a worktree and a branch;
    - [002-search]: two phases, one of them complete, one with a stuck and
      an in-progress subtask; auto-profile metadata;
    - [003-export]: every subtask complete, a QA report, single-model
      metadata.
    File texts are short stand-ins; [sample_json] says how each parses. *)

Definition subtask (id status : string) : value :=
  VDict [ ("id", VStr id); ("description", VStr ("do " ++ id)); ("status", VStr status) ].

Definition plan_001 : value :=
  VDict [ ("phases", VList [
    VDict [ ("name", VStr "Backend");
            ("subtasks", VList [ subtask "1.1" "in_progress"; subtask "1.2" "pending" ]) ] ]) ].

Definition plan_002 : value :=
  VDict [ ("phases", VList [
    VDict [ ("name", VStr "Index");
            ("subtasks", VList [ subtask "1.1" "complete"; subtask "1.2" "complete" ]) ];
    VDict [ ("name", VStr "Query");
            ("subtasks", VList [ subtask "2.1" "stuck"; subtask "2.2" "in_progress";
                                 subtask "2.3" "complete" ]) ] ]) ].

Definition plan_003 : value :=
  VDict [ ("phases", VList [
    VDict [ ("name", VStr "Writer");
            ("subtasks", VList [ subtask "1.1" "complete" ]) ] ]) ].

Definition metadata_002 : value :=
  VDict [ ("isAutoProfile", VBool true);
          ("phaseModels", VDict [ ("planning", VStr "haiku") ]);
          ("phaseThinking", VDict [ ("planning", VStr "ultrathink") ]);
          ("model", VStr "opus");
          ("thinkingLevel", VStr "low") ].

Definition metadata_003 : value :=
  VDict [ ("isAutoProfile", VBool false);
          ("model", VStr "opus");
          ("thinkingLevel", VStr "low") ].

Definition sample_json : list (string * value) :=
  [ ("<plan 001>", plan_001);
    ("<plan 002>", plan_002);
    ("<plan 003>", plan_003);
    ("<metadata 002>", metadata_002);
    ("<metadata 003>", metadata_003) ].

Definition specs : Path := "/proj/.auto-claude/specs".
Definition wts : Path := "/proj/.auto-claude-worktrees".

Definition sample_files : list (Path * node) :=
  [ ("/proj", Dir [".auto-claude"; ".auto-claude-worktrees"]);
    ("/proj/.auto-claude", Dir ["specs"]);
    (specs, Dir ["001-login"; "README.md"; "002-search"; "003-export"]);
    (specs / "README.md", File "specs live here" "2025-01-01T00:00:00");
    (specs / "001-login",
       Dir ["implementation_plan.json"; "qa_state.json"; "qa_report.md"]);
    (specs / "001-login" / "implementation_plan.json",
       File "<plan 001>" "2025-01-02T10:00:00");
    (specs / "001-login" / "qa_state.json", File "{ truncated" "2025-01-02T11:00:00");
    (specs / "001-login" / "qa_report.md",
       File "# QA report: all checks passed" "2025-01-02T12:00:00");
    (specs / "002-search", Dir ["implementation_plan.json"; "task_metadata.json"]);
    (specs / "002-search" / "implementation_plan.json",
       File "<plan 002>" "2025-01-03T10:00:00");
    (specs / "002-search" / "task_metadata.json",
       File "<metadata 002>" "2025-01-03T09:00:00");
    (specs / "003-export",
       Dir ["implementation_plan.json"; "task_metadata.json"; "qa_report.md"]);
    (specs / "003-export" / "implementation_plan.json",
       File "<plan 003>" "2025-01-04T10:00:00");
    (specs / "003-export" / "task_metadata.json",
       File "<metadata 003>" "2025-01-04T09:00:00");
    (specs / "003-export" / "qa_report.md", File "rejected" "2025-01-04T12:00:00");
    (wts, Dir ["001-login"]);
    (wts / "001-login", Dir []) ].

(** Every command starts and exits with status 0 after 50 ms, except the
    merge of [003-export], which takes 90 s. *)
Definition sample_proc (argv : list string) (dir : Path) : behaviour :=
  if existsb (String.eqb "003-export") argv then Exits 0 "" "" 90000
  else Exits 0 "" "" 50.

Definition sample_world : World :=
  mkWorld (fun _ => None) "/proj"
          (fun p => dict_lookup p sample_files)
          [wts / "001-login"] ["main"; "auto-claude/001-login"]
          (fun text => dict_lookup text sample_json)
          sample_proc 4242 "/usr/bin/python3" "/opt/auto-claude" [].

(** The same project in a process started with the given environment *)
Definition with_environ (env : list (string * string)) (w : World) : World :=
  mkWorld (fun name => dict_lookup name env) (cwd w) (fs w) (worktrees w) (branches w)
          (json_loads w) (proc w) (next_pid w) (sys_executable w) (_PARENT_DIR w)
          (trace w).

(** The same project with one more (or one replaced) file-system entry *)
Definition with_node (p : Path) (n : option node) (w : World) : World :=
  with_repo (fun q => if String.eqb q p then n else fs w q)
            (worktrees w) (branches w) w.

(** A project with three worktrees, where git cannot be started on the
    second one *)
Definition three_worktrees : World :=
  mkWorld (fun _ => None) "/proj"
          (fun p => dict_lookup p
             [ ("/proj", Dir [".auto-claude-worktrees"]);
               (wts, Dir ["001-a"; "002-b"; "003-c"]);
               (wts / "001-a", Dir []);
               (wts / "002-b", Dir []);
               (wts / "003-c", Dir []) ])
          [wts / "001-a"; wts / "002-b"; wts / "003-c"]
          ["main"; "auto-claude/001-a"; "auto-claude/002-b"; "auto-claude/003-c"]
          (fun _ => None)
          (fun argv _ => if existsb (String.eqb (wts / "002-b")) argv
                         then FailsToStart "Permission denied"
                         else Exits 0 "" "" 20)
          100 "/usr/bin/python3" "/opt/auto-claude" [].

(** A spec with one phase of three subtasks: complete, complete, in progress *)
Definition plan_two_done : value :=
  VDict [ ("phases", VList [
    VDict [ ("name", VStr "Only");
            ("subtasks", VList [ subtask "1" "complete"; subtask "2" "complete";
                                 subtask "3" "in_progress" ]) ] ]) ].

Definition two_done_world : World :=
  mkWorld (fun _ => None) "/proj"
          (fun p => dict_lookup p
             [ (specs, Dir ["007-sync"]);
               (specs / "007-sync", Dir ["implementation_plan.json"]);
               (specs / "007-sync" / "implementation_plan.json",
                  File "<plan>" "2025-02-01T08:00:00") ])
          [] ["main"]
          (fun text => if String.eqb text "<plan>" then Some plan_two_done else None)
          (fun _ _ => Exits 0 "" "" 20)
          100 "/usr/bin/python3" "/opt/auto-claude" [].

End Sample.

(* ================================================================== *)
(** * The contract, in the words of the specification *)
(* ================================================================== *)

Module Contract.

(** The five fixed thinking tiers *)
Definition fixed_tiers : list string := ["none"; "low"; "medium"; "high"; "ultrathink"].

(** [p.exists()] as a fact about the world *)
Definition file_exists (w : World) (p : Path) : bool :=
  match fs w p with Some _ => true | None => false end.

(** ** The plan a planner writes

    A plan is a dictionary; its "phases", when present, is a list of
    dictionaries; the "subtasks" of a phase, when present, is a list of
    dictionaries. *)

Definition is_dict (v : value) : bool :=
  match v with VDict _ => true | _ => false end.

Definition list_field (key : string) (v : value) : option (list value) :=
  match v with
  | VDict d => match dict_get_or d key (VList []) with
               | VList xs => Some xs
               | _ => None
               end
  | _ => None
  end.

Definition phase_subtasks (phase : value) : list value :=
  match list_field "subtasks" phase with Some ss => ss | None => [] end.

Definition plan_phases (plan : value) : list value :=
  match list_field "phases" plan with Some ps => ps | None => [] end.

Definition phase_shape (phase : value) : bool :=
  match list_field "subtasks" phase with
  | Some ss => forallb is_dict ss
  | None => false
  end.

Definition plan_shape (plan : value) : bool :=
  match list_field "phases" plan with
  | Some ps => forallb phase_shape ps
  | None => false
  end.

(** All subtasks of a plan, phase after phase *)
Definition plan_subtasks (plan : value) : list value :=
  flat_map phase_subtasks (plan_phases plan).

(** The status a subtask declares; a subtask that declares none counts as
    pending. *)
Definition subtask_status (subtask : value) : value :=
  match subtask with
  | VDict d => dict_get_or d "status" (VStr "pending")
  | _ => VStr "pending"
  end.

Definition has_status (name : string) (subtask : value) : bool :=
  eq_str (subtask_status subtask) name.

(** ** Overall status, by the fixed priority order *)
Definition derived_status (subtasks : list value) (qa_report_exists : bool) : string :=
  match subtasks with
  | [] => "pending"
  | _ =>
      if forallb (has_status "complete") subtasks then
        if qa_report_exists then "qa_complete" else "complete"
      else if existsb (has_status "in_progress") subtasks then "in_progress"
      else if existsb (has_status "stuck") subtasks then "stuck"
      else "pending"
  end.

(** ** Status of a phase *)

(** The rule as claimed: complete when every subtask is complete; else in
    progress when some subtask is complete or in progress; else pending. *)
Definition claimed_phase_status (subtasks : list value) : string :=
  if forallb (has_status "complete") subtasks then "complete"
  else if existsb (fun s => has_status "complete" s || has_status "in_progress" s)%bool
                  subtasks
       then "in_progress"
       else "pending".

(** The rule the code follows: only complete subtasks count. *)
Definition counted_phase_status (subtasks : list value) : string :=
  if forallb (has_status "complete") subtasks then "complete"
  else if existsb (has_status "complete") subtasks then "in_progress"
  else "pending".

Definition count_with (p : value -> bool) (xs : list value) : Z :=
  Z.of_nat (List.length (filter p xs)).

(** The phase entry of [get_spec_status] under the rule the code follows *)
Definition reported_phase (phase : value) : value :=
  let subtasks := phase_subtasks phase in
  VDict [ ("name", match phase with
                   | VDict d => dict_get_or d "name" (VStr "Unknown")
                   | _ => VStr "Unknown"
                   end);
          ("status", VStr (counted_phase_status subtasks));
          ("subtasks", VInt (Z.of_nat (List.length subtasks)));
          ("completed", VInt (count_with (has_status "complete") subtasks)) ].

(** The counters of [_get_subtask_counts] after [subtasks], starting from [c] *)
Definition tally (c : Counts) (subtasks : list value) : Counts :=
  mkCounts
    (completed c + count_with (has_status "complete") subtasks)
    (in_progress c + count_with (has_status "in_progress") subtasks)
    (pending c + count_with (fun s => negb (has_status "complete" s
                                          || has_status "in_progress" s
                                          || has_status "stuck" s)%bool) subtasks)
    (stuck c + count_with (has_status "stuck") subtasks)
    (total c + Z.of_nat (List.length subtasks)).

End Contract.
Export Contract.

(* ================================================================== *)
(** * Phase configuration *)
(* ================================================================== *)

Module PhaseConfigFacts.
Import Sample.

Lemma str_truthy_nonempty (s : string) : s <> EmptyString <-> str_truthy s = true.
Proof.
  destruct s; cbn; split; intro H; try congruence; try reflexivity.
Qed.

Lemma budget_key_unknown (s : string) :
  ~ In s fixed_tiers -> dict_mem s THINKING_BUDGET_MAP = false.
Proof.
  intro H. unfold dict_mem, THINKING_BUDGET_MAP. cbn [dict_lookup].
  repeat match goal with
         | |- context [String.eqb ?k s] =>
             destruct (String.eqb_spec k s) as [E | _];
             [ exfalso; apply H; rewrite <- E; cbn; tauto | ]
         end.
  reflexivity.
Qed.

(** C6: [get_thinking_budget] maps none, low, medium, high and ultrathink to
    no budget, 1024, 4096, 16384 and 65536; any other string gives 4096, the
    budget of medium, after one warning is logged; no call raises. *)
Theorem get_thinking_budget_table (w : World) :
  get_thinking_budget "none" w = (Val None, w) /\
  get_thinking_budget "low" w = (Val (Some 1024), w) /\
  get_thinking_budget "medium" w = (Val (Some 4096), w) /\
  get_thinking_budget "high" w = (Val (Some 16384), w) /\
  get_thinking_budget "ultrathink" w = (Val (Some 65536), w) /\
  (forall s : string,
      ~ In s fixed_tiers ->
      get_thinking_budget s w
      = (Val (Some 4096), emit (SysLogWarning (invalid_level_message s)) w)) /\
  (forall s : string, exists budget, fst (get_thinking_budget s w) = Val budget).
Proof.
  repeat split; try reflexivity.
  - intros s H. unfold get_thinking_budget.
    rewrite (budget_key_unknown s H). reflexivity.
  - intro s. unfold get_thinking_budget.
    destruct (dict_mem s THINKING_BUDGET_MAP); cbn; eexists; reflexivity.
Qed.

Lemma get_thinking_budget_table_witness :
  ~ In "extreme" fixed_tiers /\
  fst (get_thinking_budget "extreme" sample_world) = Val (Some 4096) /\
  trace (snd (get_thinking_budget "extreme" sample_world))
  = [SysLogWarning "Invalid thinking_level 'extreme'. Valid values: none, low, medium, high, ultrathink. Defaulting to 'medium'."].
Proof.
  assert (H : ~ In "extreme" fixed_tiers).
  { cbn. intros [E | [E | [E | [E | [E | []]]]]]; discriminate E. }
  split; [exact H |].
  rewrite (proj1 (proj2 (proj2 (proj2 (proj2 (proj2
             (get_thinking_budget_table sample_world)))))) "extreme" H).
  split; reflexivity.
Defined.

(** The primary-model override read from the environment: the value of
    AUTO_BUILD_MODEL when it is non-empty, else that of ANTHROPIC_MODEL. *)
Lemma primary_model_env_spec (w : World) :
  primary_model_env w
  = (Val (opt_or (environ w "AUTO_BUILD_MODEL") (environ w "ANTHROPIC_MODEL")), w).
Proof.
  unfold primary_model_env, bind, os_environ_get, opt_or. cbn.
  destruct (opt_truthy (environ w "AUTO_BUILD_MODEL")); reflexivity.
Qed.

(** The redirection table depends on the environment only. *)
Lemma get_model_id_map_env (w w' : World) :
  (forall name, environ w' name = environ w name) ->
  fst (get_model_id_map w') = fst (get_model_id_map w).
Proof.
  intro E. unfold get_model_id_map, bind.
  rewrite !primary_model_env_spec. cbn. rewrite !E. reflexivity.
Qed.

Lemma get_model_id_map_pure (w : World) :
  exists mapping, get_model_id_map w = (Val mapping, w).
Proof.
  unfold get_model_id_map, bind. rewrite primary_model_env_spec. cbn.
  eexists. reflexivity.
Qed.

(** Resolution reads the environment and nothing else. *)
Lemma resolve_model_id_env (v : value) (w w' : World) :
  (forall name, environ w' name = environ w name) ->
  fst (resolve_model_id v w') = fst (resolve_model_id v w).
Proof.
  intro E. unfold resolve_model_id.
  destruct (negb (truthy v)); [reflexivity |].
  unfold bind.
  pose proof (get_model_id_map_env w w' E) as Hm.
  destruct (get_model_id_map_pure w) as [mp Hw].
  destruct (get_model_id_map_pure w') as [mp' Hw'].
  rewrite Hw, Hw' in Hm. cbn in Hm. injection Hm as ->.
  rewrite Hw, Hw'.
  destruct v; try reflexivity.
  destruct (negb (String.eqb (dict_get_or mp (lower s) s) s)); reflexivity.
Qed.

(** C4: when the primary-model override is set in the environment (a
    non-empty AUTO_BUILD_MODEL, or else a non-empty ANTHROPIC_MODEL),
    [get_phase_model] is the shorthand resolution of that override, whatever
    the spec directory, the phase and the per-call model argument are; the
    files of the project (and so the metadata with its per-phase map and its
    single model) have no influence on the answer. *)
Theorem get_phase_model_env_override
        (w : World) (m : string) (spec_dir : Path) (phase : Phase)
        (cli_model : option string) :
  opt_or (environ w "AUTO_BUILD_MODEL") (environ w "ANTHROPIC_MODEL") = Some m ->
  m <> EmptyString ->
  get_phase_model spec_dir phase cli_model w = resolve_model_id (VStr m) w
  /\ (forall f wts brs,
         fst (get_phase_model spec_dir phase cli_model (with_repo f wts brs w))
         = fst (resolve_model_id (VStr m) w))
  /\ (forall spec_dir' phase' cli_model',
         get_phase_model spec_dir' phase' cli_model' w
         = get_phase_model spec_dir phase cli_model w).
Proof.
  intros Henv Hm. apply str_truthy_nonempty in Hm.
  assert (Hgen : forall w0 sd ph cli,
             opt_or (environ w0 "AUTO_BUILD_MODEL") (environ w0 "ANTHROPIC_MODEL")
             = Some m ->
             get_phase_model sd ph cli w0 = resolve_model_id (VStr m) w0).
  { intros w0 sd ph cli H0. unfold get_phase_model, bind.
    rewrite primary_model_env_spec, H0. cbn. rewrite Hm. reflexivity. }
  split; [apply Hgen; exact Henv |]. split.
  - intros f wts brs. rewrite Hgen.
    + apply resolve_model_id_env. reflexivity.
    + exact Henv.
  - intros sd ph cli. rewrite !Hgen by exact Henv. reflexivity.
Qed.

Lemma get_phase_model_env_override_witness :
  let w := with_environ [("ANTHROPIC_MODEL", "kimi-k2")] sample_world in
  fst (get_phase_model (specs / "002-search") planning (Some "sonnet") w)
  = Val "kimi-k2"
  /\ fst (get_phase_model (specs / "002-search") planning (Some "sonnet") sample_world)
     = Val "claude-sonnet-4-5-20250929"
  /\ fst (get_phase_model (specs / "002-search") planning None sample_world)
     = Val "claude-haiku-4-5-20251001".
Proof.
  intro w. split; [| split; reflexivity].
  assert (Henv : opt_or (environ w "AUTO_BUILD_MODEL") (environ w "ANTHROPIC_MODEL")
                 = Some "kimi-k2") by reflexivity.
  assert (Hm : "kimi-k2" <> EmptyString) by discriminate.
  rewrite (proj1 (get_phase_model_env_override
                    w "kimi-k2" (specs / "002-search") planning (Some "sonnet")
                    Henv Hm)).
  reflexivity.
Defined.

(** C5: an explicit, non-empty per-call thinking tier is returned as it is,
    and no file is read.  Without one, the metadata decides: under an auto
    profile with a non-empty per-phase map, the entry of the phase (the
    per-phase default when the phase has none), whatever the single declared
    tier is; otherwise the single declared tier when there is one; otherwise
    the per-phase default. *)
Theorem get_phase_thinking_precedence (w : World) (spec_dir : Path) (phase : Phase) :
  (forall t : string,
      t <> EmptyString ->
      get_phase_thinking spec_dir phase (Some t) w = (Val (VStr t), w))
  /\
  (forall (cli : option string) (md : list (string * value)) (w' : World),
      opt_truthy cli = false ->
      load_task_metadata spec_dir w = (Val (VDict md), w') ->
      let auto := truthy (dict_get_or md "isAutoProfile" VNone) in
      let per_phase := dict_get_or md "phaseThinking" VNone in
      let single := dict_get_or md "thinkingLevel" VNone in
      (forall pt,
          auto = true -> per_phase = VDict pt -> pt <> [] ->
          get_phase_thinking spec_dir phase cli w
          = (Val (dict_get_or pt (phase_key phase)
                              (VStr (DEFAULT_PHASE_THINKING phase))), w'))
      /\
      ((auto && truthy per_phase)%bool = false ->
       truthy single = true ->
       get_phase_thinking spec_dir phase cli w = (Val single, w'))
      /\
      ((auto && truthy per_phase)%bool = false ->
       truthy single = false ->
       get_phase_thinking spec_dir phase cli w
       = (Val (VStr (DEFAULT_PHASE_THINKING phase)), w')))
  /\
  (forall (cli : option string) (w' : World),
      opt_truthy cli = false ->
      load_task_metadata spec_dir w = (Val VNone, w') ->
      get_phase_thinking spec_dir phase cli w
      = (Val (VStr (DEFAULT_PHASE_THINKING phase)), w')).
Proof.
  split; [| split].
  - intros t Ht. apply str_truthy_nonempty in Ht.
    unfold get_phase_thinking. cbn. rewrite Ht. reflexivity.
  - intros cli md w' Hcli Hload auto per_phase single.
    assert (Hstep : forall k : value -> M value,
               bind (load_task_metadata spec_dir) k w = k (VDict md) w').
    { intro k. unfold bind. rewrite Hload. reflexivity. }
    unfold get_phase_thinking. rewrite Hcli, Hstep.
    split; [| split].
    + intros pt Hauto Hmap Hpt.
      assert (Hmd : md <> []).
      { intro E. subst md. cbn in auto. subst auto. discriminate Hauto. }
      destruct md as [| kv md']; [congruence |].
      cbn [truthy]. unfold bind, lift, py_get, py_getitem, ret.
      fold auto. rewrite Hauto. fold per_phase. rewrite Hmap.
      destruct pt as [| e pt']; [congruence |]. cbn [truthy].
      unfold per_phase, dict_get_or in Hmap.
      destruct (dict_lookup "phaseThinking" (kv :: md')) as [v |] eqn:El;
        [| discriminate Hmap].
      subst v. reflexivity.
    + intros Hno Hsingle.
      destruct md as [| kv md'].
      { cbn in single. subst single. discriminate Hsingle. }
      cbn [truthy]. unfold bind, lift, py_get, py_getitem, ret.
      fold auto. fold per_phase. fold single.
      destruct auto; cbn in Hno; [rewrite Hno |]; rewrite Hsingle;
        unfold single, dict_get_or in *;
        destruct (dict_lookup "thinkingLevel" (kv :: md')) as [v |] eqn:El;
        try reflexivity; discriminate Hsingle.
    + intros Hno Hsingle.
      destruct md as [| kv md']; [reflexivity |].
      cbn [truthy]. unfold bind, lift, py_get, py_getitem, ret.
      fold auto. fold per_phase. fold single.
      destruct auto; cbn in Hno; [rewrite Hno |]; rewrite Hsingle; reflexivity.
  - intros cli w' Hcli Hload.
    unfold get_phase_thinking, bind. rewrite Hcli, Hload. reflexivity.
Qed.

Lemma get_phase_thinking_precedence_witness :
  (* explicit argument against a populated auto-profile map *)
  fst (get_phase_thinking (specs / "002-search") planning (Some "none") sample_world)
  = Val (VStr "none")
  (* the map against the single declared tier *)
  /\ fst (get_phase_thinking (specs / "002-search") planning None sample_world)
     = Val (VStr "ultrathink")
  (* the single declared tier against the default *)
  /\ fst (get_phase_thinking (specs / "003-export") qa None sample_world)
     = Val (VStr "low")
  (* the default *)
  /\ fst (get_phase_thinking (specs / "001-login") qa None sample_world)
     = Val (VStr "high").
Proof.
  pose proof (get_phase_thinking_precedence
                sample_world (specs / "002-search") planning) as [H1 [H2 _]].
  pose proof (get_phase_thinking_precedence
                sample_world (specs / "003-export") qa) as [_ [H3 _]].
  pose proof (get_phase_thinking_precedence
                sample_world (specs / "001-login") qa) as [_ [_ H4]].
  split; [| split; [| split]].
  - rewrite (H1 "none"); [reflexivity | discriminate].
  - specialize (H2 None (match metadata_002 with VDict d => d | _ => [] end)
                   (snd (load_task_metadata (specs / "002-search") sample_world))
                   eq_refl eq_refl).
    cbv zeta in H2. destruct H2 as [Hmap _].
    rewrite (Hmap [("planning", VStr "ultrathink")] eq_refl eq_refl);
      [reflexivity | discriminate].
  - specialize (H3 None (match metadata_003 with VDict d => d | _ => [] end)
                   (snd (load_task_metadata (specs / "003-export") sample_world))
                   eq_refl eq_refl).
    cbv zeta in H3. destruct H3 as [_ [Hsingle _]].
    rewrite (Hsingle eq_refl eq_refl). reflexivity.
  - rewrite (H4 None (snd (load_task_metadata (specs / "001-login") sample_world))
                eq_refl eq_refl).
    reflexivity.
Defined.

End PhaseConfigFacts.

(* ================================================================== *)
(** * Tools: what a look-up leaves behind *)
(* ================================================================== *)

Module LookupFacts.

(** Projections of a world after [emit], [with_trace], [with_repo] *)
Ltac world_simpl :=
  cbn [fs environ cwd worktrees branches json_loads proc next_pid
       sys_executable _PARENT_DIR trace emit with_trace with_repo with_next_pid] in *.

(** Unfolds the sequencing operators and the primitives *)
Ltac monad_unfold :=
  cbv beta iota delta
      [bind ret raise lift try_except except_Exception except_JSONDecodeError
       except_JSONDecodeError_OSError except_TimeoutExpired or_else
       os_environ_get Path_cwd exists_ is_dir iterdir read_text stat_mtime_iso
       json_loads_ print_stderr logging_warning] in *.

Ltac msimpl := monad_unfold; world_simpl.

(** Choosing the project directory touches nothing. *)
Lemma _get_project_dir_pure (project_dir : option string) (w : World) :
  exists proj_dir, _get_project_dir project_dir w = (Val proj_dir, w).
Proof.
  unfold _get_project_dir.
  destruct (opt_truthy project_dir); [eexists; reflexivity |].
  unfold bind, os_environ_get.
  destruct (opt_truthy (environ w "AUTO_CLAUDE_PROJECT_DIR"));
    eexists; reflexivity.
Qed.

Lemma _find_spec_loop_frame (spec_id : string) (entries : list Path) :
  forall (w w1 : World) (r : result (option Path)),
    _find_spec_loop spec_id entries w = (r, w1) ->
    exists t, w1 = with_trace t w.
Proof.
  induction entries as [| e rest IH]; intros w w1 r H.
  - unfold _find_spec_loop, ret in H. injection H as _ <-.
    exists (trace w). destruct w; reflexivity.
  - cbn [_find_spec_loop] in H. msimpl.
    match type of H with
    | (if ?c then _ else _) _ = _ => destruct c
    end.
    + unfold ret in H. injection H as _ <-. eexists. reflexivity.
    + apply IH in H. destruct H as [t ->]. exists t. reflexivity.
Qed.

(** Resolving a spec id only reads: the world afterwards differs from the
    world before in its trace alone. *)
Lemma _find_spec_frame (proj_dir : Path) (spec_id : string) (w w1 : World)
      (r : result (option Path)) :
  _find_spec proj_dir spec_id w = (r, w1) ->
  exists t, w1 = with_trace t w.
Proof.
  unfold _find_spec. msimpl.
  destruct (fs w (_get_specs_dir proj_dir)) as [[text iso | names] |] eqn:E;
    cbn [negb]; msimpl; rewrite ?E.
  - intro H. injection H as _ <-. eexists. reflexivity.
  - intro H. apply _find_spec_loop_frame in H. destruct H as [t ->].
    exists t. reflexivity.
  - intro H. injection H as _ <-. eexists. reflexivity.
Qed.

(** The look-up raises only when the specs path exists and is not a
    directory; otherwise it returns. *)
Lemma _find_spec_loop_returns (spec_id : string) (entries : list Path) (w : World) :
  exists found w1, _find_spec_loop spec_id entries w = (Val found, w1).
Proof.
  revert w. induction entries as [| e rest IH]; intro w.
  - eexists _, _. reflexivity.
  - cbn [_find_spec_loop]. msimpl.
    match goal with
    | |- context [if ?c then _ else _] => destruct c
    end.
    + eexists _, _. reflexivity.
    + apply IH.
Qed.

Lemma _find_spec_returns (proj_dir : Path) (spec_id : string) (w : World) :
  (forall text iso, fs w (_get_specs_dir proj_dir) <> Some (File text iso)) ->
  exists found w1, _find_spec proj_dir spec_id w = (Val found, w1).
Proof.
  intro Hdir. unfold _find_spec. msimpl.
  destruct (fs w (_get_specs_dir proj_dir)) as [[text iso | names] |] eqn:E;
    cbn [negb]; msimpl; rewrite ?E.
  - exfalso. apply (Hdir text iso). reflexivity.
  - apply _find_spec_loop_returns.
  - eexists _, _. reflexivity.
Qed.

(** No spec directory is found where the specs directory is missing. *)
Lemma _find_spec_no_specs_dir (proj_dir : Path) (spec_id : string) (w : World) :
  fs w (_get_specs_dir proj_dir) = None ->
  _find_spec proj_dir spec_id w
  = (Val None, emit (SysExists (_get_specs_dir proj_dir)) w).
Proof.
  intro E. unfold _find_spec. msimpl. rewrite E. reflexivity.
Qed.

(** No spec directory is found where no entry of the specs directory that
    is a directory is named [spec_id] or starts with [spec_id] and a dash. *)
Lemma _find_spec_loop_no_match (spec_id : string) (entries : list Path) :
  forall w : World,
    (forall e, In e entries ->
               fs w e = None \/ (exists text iso, fs w e = Some (File text iso))
               \/ (String.eqb (path_name e) spec_id
                   || startswith (path_name e) (spec_id ++ "-"))%bool = false) ->
    fst (_find_spec_loop spec_id entries w) = Val None.
Proof.
  induction entries as [| e rest IH]; intros w H; [reflexivity |].
  cbn [_find_spec_loop]. msimpl.
  assert (Hc : (match fs w e with Some (Dir _) => true | _ => false end
                && (String.eqb (path_name e) spec_id
                    || startswith (path_name e) (spec_id ++ "-")))%bool = false).
  { destruct (H e (or_introl eq_refl)) as [E | [(text & iso & E) | E]].
    - rewrite E. reflexivity.
    - rewrite E. reflexivity.
    - rewrite E. apply andb_false_r. }
  rewrite Hc. apply IH. intros e' Hin. world_simpl.
  apply H. right. exact Hin.
Qed.

End LookupFacts.

(* ================================================================== *)
(** * Destructive tools and their confirmation gate *)
(* ================================================================== *)

Module GateFacts.
Import Sample LookupFacts.

(** A confirmed discard does change the repository: in the sample project
    the worktree of 001-login is unregistered and deleted, and its branch is
    gone. *)
Lemma discard_build_confirmed_sample :
  let w' := snd (discard_build "001" None true sample_world) in
  worktrees sample_world = [wts / "001-login"]
  /\ worktrees w' = []
  /\ branches sample_world = ["main"; "auto-claude/001-login"]
  /\ branches w' = ["main"]
  /\ fs w' (wts / "001-login") = None.
Proof. vm_compute. repeat split. Qed.

(** And so does a confirmed clean-up. *)
Lemma cleanup_worktrees_confirmed_sample :
  let w' := snd (cleanup_worktrees None true sample_world) in
  worktrees w' = [] /\ fs w' (wts / "001-login") = None.
Proof. vm_compute. repeat split. Qed.

(** C1: with [confirm = false], and so also in a call that leaves [confirm]
    out, [discard_build] and [cleanup_worktrees] return a result whose status
    is blocked and leave the world as it was: the same registered worktrees,
    the same branches, the same files, and no call made. *)
Theorem confirmation_gate_blocks
        (w : World) (spec_id : string) (project_dir : option string) :
  (discard_build spec_id project_dir false w = (Val blocked_discard, w)
   /\ discard_build spec_id project_dir confirm_default w = (Val blocked_discard, w)
   /\ py_get blocked_discard "status" VNone = Val (VStr "blocked"))
  /\
  (cleanup_worktrees project_dir false w = (Val blocked_cleanup, w)
   /\ cleanup_worktrees project_dir confirm_default w = (Val blocked_cleanup, w)
   /\ py_get blocked_cleanup "status" VNone = Val (VStr "blocked"))
  /\
  (let w1 := snd (discard_build spec_id project_dir false w) in
   let w2 := snd (cleanup_worktrees project_dir false w) in
   (worktrees w1 = worktrees w /\ branches w1 = branches w /\ fs w1 = fs w
    /\ trace w1 = trace w)
   /\
   (worktrees w2 = worktrees w /\ branches w2 = branches w /\ fs w2 = fs w
    /\ trace w2 = trace w)).
Proof.
  repeat split.
Qed.

(** C10: an unconfirmed [discard_build] answers blocked for every spec id,
    known or not, and never the not-found result; it makes no file-system or
    subprocess call (the trace does not grow), and its answer is the same in
    every world and for every spec id. *)
Theorem discard_gate_before_lookup
        (w : World) (spec_id : string) (project_dir : option string) :
  fst (discard_build spec_id project_dir false w) = Val blocked_discard
  /\ blocked_discard <> not_found_action spec_id
  /\ trace (snd (discard_build spec_id project_dir false w)) = trace w
  /\ (forall (w' : World) (spec_id' : string) (project_dir' : option string),
         fst (discard_build spec_id' project_dir' false w')
         = fst (discard_build spec_id project_dir false w)).
Proof.
  split; [reflexivity |]. split; [| split; [reflexivity |]].
  - unfold blocked_discard, not_found_action. intro H. discriminate H.
  - intros w' spec_id' project_dir'. reflexivity.
Qed.

(** The two ends of C10 in the sample project: 001 resolves, 404 does not;
    confirmed, they are told apart; unconfirmed, they are not. *)
Lemma discard_gate_sample :
  fst (_find_spec "/proj" "001" sample_world) = Val (Some (specs / "001-login"))
  /\ fst (_find_spec "/proj" "404" sample_world) = Val None
  /\ fst (discard_build "404" None true sample_world) = Val (not_found_action "404")
  /\ fst (discard_build "404" None false sample_world) = Val blocked_discard
  /\ fst (discard_build "001" None false sample_world) = Val blocked_discard.
Proof. vm_compute. repeat split. Qed.

End GateFacts.

(* ================================================================== *)
(** * Unknown spec ids *)
(* ================================================================== *)

Module NotFoundFacts.
Import Sample LookupFacts.

(** C7, as the claim states it, fails: in the sample project the id 404
    resolves to no spec directory; [get_spec_status] answers with the keys
    error and found, [run_build] with the keys error and status, and no key
    found. *)
Lemma unknown_spec_not_uniform :
  fst (_find_spec "/proj" "404" sample_world) = Val None
  /\ fst (get_spec_status "404" None sample_world)
     = Val (VDict [ ("error", VStr "Spec '404' not found"); ("found", VBool false) ])
  /\ fst (run_build "404" None None None "isolated" true false sample_world)
     = Val (VDict [ ("error", VStr "Spec '404' not found"); ("status", VStr "error") ])
  /\ fst (run_build "404" None None None "isolated" true false sample_world)
     <> Val (VDict [ ("error", VStr "Spec '404' not found"); ("found", VBool false) ]).
Proof.
  split; [vm_compute; reflexivity |].
  split; [vm_compute; reflexivity |].
  split; [vm_compute; reflexivity |].
  vm_compute. intro H. discriminate H.
Qed.

(** Runs a tool up to its look-up, whose outcome the two hypotheses give *)
Ltac lookup_fails Hdir Hfind :=
  unfold bind; rewrite Hdir; cbn beta iota; rewrite Hfind; reflexivity.

(** C7, amended: when the spec id resolves to no spec directory, the four
    query tools return the dictionary with error = "Spec '<id>' not found"
    and found = false; the five action tools ([discard_build] once
    confirmed) return the dictionary with the same error text and
    status = "error", without a key found.  Each returns normally, having
    done nothing beyond the look-up. *)
Theorem unknown_spec_results
        (w w1 : World) (spec_id : string) (project_dir : option string)
        (proj_dir : Path) :
  _get_project_dir project_dir w = (Val proj_dir, w) ->
  _find_spec proj_dir spec_id w = (Val None, w1) ->
  (get_spec_status spec_id project_dir w = (Val (not_found_query spec_id), w1)
   /\ get_qa_status spec_id project_dir w = (Val (not_found_query spec_id), w1)
   /\ review_build spec_id project_dir w = (Val (not_found_query spec_id), w1)
   /\ merge_preview spec_id project_dir w = (Val (not_found_query spec_id), w1))
  /\
  ((forall model max_iterations mode auto_continue skip_qa,
       run_build spec_id project_dir model max_iterations mode auto_continue skip_qa w
       = (Val (not_found_action spec_id), w1))
   /\ run_qa spec_id project_dir w = (Val (not_found_action spec_id), w1)
   /\ run_followup spec_id project_dir w = (Val (not_found_action spec_id), w1)
   /\ (forall no_commit,
          merge_build spec_id project_dir no_commit w
          = (Val (not_found_action spec_id), w1))
   /\ discard_build spec_id project_dir true w = (Val (not_found_action spec_id), w1))
  /\
  (not_found_query spec_id
   = VDict [ ("error", VStr ("Spec '" ++ spec_id ++ "' not found"));
             ("found", VBool false) ]
   /\ not_found_action spec_id
      = VDict [ ("error", VStr ("Spec '" ++ spec_id ++ "' not found"));
                ("status", VStr "error") ]).
Proof.
  intros Hdir Hfind.
  split; [| split].
  - repeat split.
    + unfold get_spec_status. lookup_fails Hdir Hfind.
    + unfold get_qa_status. lookup_fails Hdir Hfind.
    + unfold review_build. lookup_fails Hdir Hfind.
    + unfold merge_preview. lookup_fails Hdir Hfind.
  - repeat split.
    + intros. unfold run_build. lookup_fails Hdir Hfind.
    + unfold run_qa. lookup_fails Hdir Hfind.
    + unfold run_followup. lookup_fails Hdir Hfind.
    + intros. unfold merge_build. lookup_fails Hdir Hfind.
    + unfold discard_build. cbn [negb]. lookup_fails Hdir Hfind.
  - split; reflexivity.
Qed.

Lemma unknown_spec_results_witness :
  get_spec_status "404" None sample_world
  = (Val (not_found_query "404"), snd (_find_spec "/proj" "404" sample_world))
  /\ merge_build "404" None false sample_world
     = (Val (not_found_action "404"), snd (_find_spec "/proj" "404" sample_world)).
Proof.
  pose proof (unknown_spec_results
                sample_world (snd (_find_spec "/proj" "404" sample_world))
                "404" None "/proj" eq_refl eq_refl) as [[Hq _] [[_ [_ [_ [Hm _]]]] _]].
  split; [exact Hq | exact (Hm false)].
Defined.

End NotFoundFacts.

(* ================================================================== *)
(** * The synchronous merge *)
(* ================================================================== *)

Module MergeFacts.
Import Sample LookupFacts.

Lemma merge_results_distinct (spec_dir : Path) (result : CompletedProcess) :
  merge_completed spec_dir result <> merge_timed_out.
Proof.
  unfold merge_completed, merge_timed_out. intro H. discriminate H.
Qed.

Lemma trace_git_effect (argv : list string) (w : World) :
  trace (git_effect argv w) = trace w.
Proof.
  destruct argv as [| a0 [| a1 [| a2 [| a3 [| a4 [| a5 rest]]]]]];
    try reflexivity; unfold git_effect.
  - destruct (String.eqb a0 "git" && String.eqb a1 "branch" && String.eqb a2 "-D")%bool;
      reflexivity.
  - destruct (String.eqb a0 "git" && String.eqb a1 "worktree"
              && String.eqb a2 "remove" && String.eqb a3 "--force")%bool;
      reflexivity.
Qed.

(** A subprocess call adds itself to the trace, whatever becomes of it. *)
Lemma subprocess_run_trace (argv : list string) (dir : Path) (timeout_s : option N)
      (w : World) :
  trace (snd (subprocess_run argv dir timeout_s w))
  = (trace w ++ [SysRun argv dir timeout_s])%list.
Proof.
  unfold subprocess_run.
  destruct (proc w argv dir) as [msg | rc out err ms]; [reflexivity |].
  destruct (timed_out timeout_s ms); [reflexivity |].
  destruct (rc =? 0); [| reflexivity].
  cbn [snd]. rewrite trace_git_effect. reflexivity.
Qed.

(** The handlers of [merge_build] only build a result. *)
Lemma merge_handlers_keep_world (m : M CompletedProcess) (spec_dir : Path) (w : World) :
  snd (try_except
         (bind m (fun result => ret (merge_completed spec_dir result)))
         (or_else (except_TimeoutExpired (ret merge_timed_out))
                  (except_Exception (fun e => ret (merge_failed e))))
         w)
  = snd (m w).
Proof.
  unfold try_except, bind.
  destruct (m w) as [[v | e] w']; [reflexivity |].
  destruct e; reflexivity.
Qed.

(** C9: [merge_build] runs the merge command
    [python run.py --spec <name> --project-dir <dir> --merge] (with
    [--no-commit] on request) once, with a timeout of 60 seconds, and waits
    for it.  A run longer than that gives the result with status "error" and
    error "Merge timed out".  A run that ends in time gives the result with
    the spec id and the output, status "success" or "error" by the exit
    status and, on a non-zero exit status, the standard error text of the
    subprocess under error; this result is never the timed-out one.  A
    command that cannot be started gives a result with status "error" and
    the text of the exception.  Whenever the look-up of the spec returns,
    found or not, a result is returned: nothing is raised. *)
Theorem merge_build_bounded_wait
        (w w1 : World) (spec_id : string) (project_dir : option string)
        (no_commit : bool) (proj_dir : Path) (found : option Path) :
  _get_project_dir project_dir w = (Val proj_dir, w) ->
  _find_spec proj_dir spec_id w = (Val found, w1) ->
  (exists v, fst (merge_build spec_id project_dir no_commit w) = Val v)
  /\
  (forall spec_dir : Path,
      found = Some spec_dir ->
      let cmd :=
        ([ sys_executable w; _PARENT_DIR w / "run.py";
           "--spec"; path_name spec_dir; "--project-dir"; proj_dir; "--merge" ]
         ++ (if no_commit then ["--no-commit"] else []))%list in
      let timed_out_result :=
        VDict [ ("status", VStr "error"); ("error", VStr "Merge timed out") ] in
      let completed_result (rc : Z) (out err : string) :=
        VDict [ ("status", VStr (if rc =? 0 then "success" else "error"));
                ("spec_id", VStr (path_name spec_dir));
                ("output", VStr out);
                ("error", if negb (rc =? 0) then VStr err else VNone) ] in
      trace (snd (merge_build spec_id project_dir no_commit w))
      = (trace w1 ++ [SysRun cmd proj_dir (Some 60%N)])%list
      /\
      (forall rc out err ms,
          proc w cmd proj_dir = Exits rc out err ms ->
          (60 * 1000 < ms)%N ->
          fst (merge_build spec_id project_dir no_commit w) = Val timed_out_result)
      /\
      (forall rc out err ms,
          proc w cmd proj_dir = Exits rc out err ms ->
          (ms <= 60 * 1000)%N ->
          fst (merge_build spec_id project_dir no_commit w)
          = Val (completed_result rc out err)
          /\ completed_result rc out err <> timed_out_result
          /\ (rc <> 0 ->
              py_get (completed_result rc out err) "status" VNone = Val (VStr "error")
              /\ py_get (completed_result rc out err) "error" VNone = Val (VStr err))
          /\ (rc = 0 ->
              py_get (completed_result rc out err) "status" VNone
              = Val (VStr "success")))
      /\
      (forall msg,
          proc w cmd proj_dir = FailsToStart msg ->
          fst (merge_build spec_id project_dir no_commit w)
          = Val (VDict [ ("status", VStr "error"); ("error", VStr msg) ]))).
Proof.
  intros Hdir Hfind.
  destruct (_find_spec_frame _ _ _ _ _ Hfind) as [t Hw1].
  destruct found as [spec_dir |].
  2:{ split; [| intros spec_dir H; discriminate H].
      unfold merge_build, bind. rewrite Hdir. cbn beta iota. rewrite Hfind.
      eexists. reflexivity. }
  set (cmd := ([ sys_executable w; _PARENT_DIR w / "run.py";
                 "--spec"; path_name spec_dir; "--project-dir"; proj_dir;
                 "--merge" ]
               ++ (if no_commit then ["--no-commit"] else []))%list).
  assert (Hcmd : merge_command (run_py w1 spec_dir proj_dir) no_commit = cmd).
  { subst w1 cmd. unfold merge_command, run_py. cbn [sys_executable _PARENT_DIR with_trace].
    destruct no_commit; reflexivity. }
  assert (Hrun : merge_build spec_id project_dir no_commit w
                 = try_except
                     (bind (subprocess_run cmd proj_dir (Some merge_timeout))
                           (fun result => ret (merge_completed spec_dir result)))
                     (or_else (except_TimeoutExpired (ret merge_timed_out))
                              (except_Exception (fun e => ret (merge_failed e))))
                     w1).
  { unfold merge_build, bind at 1 2. rewrite Hdir. cbn beta iota. rewrite Hfind.
    cbn beta iota. unfold bind at 1, get_run_py. cbn beta iota.
    rewrite Hcmd. reflexivity. }
  assert (Hproc : proc w1 cmd proj_dir = proc w cmd proj_dir)
    by (rewrite Hw1; reflexivity).
  rewrite Hrun. clear Hrun.
  split.
  { unfold try_except, bind, subprocess_run. rewrite Hproc.
    destruct (proc w cmd proj_dir) as [msg | rc out err ms].
    - eexists; reflexivity.
    - destruct (timed_out (Some merge_timeout) ms); eexists; reflexivity. }
  intros spec_dir' Hsome. injection Hsome as <-.
  fold cmd. cbv zeta.
  split.
  { rewrite merge_handlers_keep_world, subprocess_run_trace. reflexivity. }
  unfold try_except, bind, subprocess_run. rewrite Hproc.
  split; [| split].
  - intros rc out err ms Hp Hms. rewrite Hp.
    unfold timed_out, merge_timeout.
    apply N.ltb_lt in Hms. rewrite Hms. reflexivity.
  - intros rc out err ms Hp Hms. rewrite Hp.
    unfold timed_out, merge_timeout.
    apply N.ltb_ge in Hms. rewrite Hms.
    split; [reflexivity |]. split; [intro H; discriminate H |].
    split.
    + intro Hrc. apply Z.eqb_neq in Hrc.
      unfold py_get, dict_get_or. cbn. rewrite Hrc. split; reflexivity.
    + intros ->. reflexivity.
  - intros msg Hp. rewrite Hp. reflexivity.
Qed.

Lemma merge_build_bounded_wait_witness :
  (* 003-export: the merge takes 90 s *)
  fst (merge_build "003" None false sample_world)
  = Val (VDict [ ("status", VStr "error"); ("error", VStr "Merge timed out") ])
  /\ trace (snd (merge_build "003" None false sample_world))
     = [ SysExists specs; SysIterdir specs;
         SysIsDir (specs / "001-login"); SysIsDir (specs / "README.md");
         SysIsDir (specs / "002-search"); SysIsDir (specs / "003-export");
         SysRun [ "/usr/bin/python3"; "/opt/auto-claude/run.py";
                  "--spec"; "003-export"; "--project-dir"; "/proj"; "--merge" ]
                "/proj" (Some 60%N) ]
  (* 001-login: the merge ends after 50 ms with exit status 0 *)
  /\ fst (merge_build "001" None false sample_world)
     = Val (VDict [ ("status", VStr "success"); ("spec_id", VStr "001-login");
                    ("output", VStr ""); ("error", VNone) ]).
Proof.
  pose proof (merge_build_bounded_wait
                sample_world (snd (_find_spec "/proj" "003" sample_world))
                "003" None false "/proj" (Some (specs / "003-export"))
                eq_refl eq_refl) as [_ H3].
  specialize (H3 (specs / "003-export") eq_refl). cbv zeta in H3.
  destruct H3 as [Htrace [Hslow _]].
  pose proof (merge_build_bounded_wait
                sample_world (snd (_find_spec "/proj" "001" sample_world))
                "001" None false "/proj" (Some (specs / "001-login"))
                eq_refl eq_refl) as [_ H1].
  specialize (H1 (specs / "001-login") eq_refl). cbv zeta in H1.
  destruct H1 as [_ [_ [Hfast _]]].
  split; [| split].
  - apply (Hslow 0 EmptyString EmptyString 90000%N); reflexivity.
  - rewrite Htrace. reflexivity.
  - destruct (Hfast 0 EmptyString EmptyString 50%N) as [Hr _];
      [reflexivity | vm_compute; discriminate |].
    rewrite Hr. reflexivity.
Defined.

End MergeFacts.

(* ================================================================== *)
(** * QA status *)
(* ================================================================== *)

Module QaFacts.
Import Sample LookupFacts.

(** With a [qa_state.json] that does not parse, [get_qa_status] returns the
    initial result: the markdown report, present or not, is not consulted. *)
Lemma get_qa_status_unparseable_state
      (w w1 : World) (spec_id : string) (project_dir : option string)
      (proj_dir spec_dir : Path) (text iso : string) :
  _get_project_dir project_dir w = (Val proj_dir, w) ->
  _find_spec proj_dir spec_id w = (Val (Some spec_dir), w1) ->
  fs w (spec_dir / "qa_state.json") = Some (File text iso) ->
  json_loads w text = None ->
  fst (get_qa_status spec_id project_dir w)
  = Val (VDict [ ("spec_id", VStr (path_name spec_dir));
                 ("found", VBool true);
                 ("qa_run", VBool false);
                 ("passed", VBool false);
                 ("issues", VList []);
                 ("last_run", VNone) ]).
Proof.
  intros Hdir Hfind Hfile Hjson.
  destruct (_find_spec_frame _ _ _ _ _ Hfind) as [t ->].
  unfold get_qa_status, bind at 1 2. rewrite Hdir. cbn beta iota. rewrite Hfind.
  cbn beta iota. unfold qa_from_state. msimpl. rewrite Hfile. cbn beta iota.
  world_simpl. rewrite Hfile, Hjson. reflexivity.
Qed.

(** C8 at the failing input: in the sample project the spec 001-login has a
    [qa_state.json] that does not parse and a [qa_report.md] with the word
    "passed".  [get_qa_status] reports that QA has not run; with the state
    file removed and nothing else changed, it reports the run, the pass and
    the time of the report. *)
Theorem get_qa_status_unparseable_state_sample :
  let state := specs / "001-login" / "qa_state.json" in
  let report := specs / "001-login" / "qa_report.md" in
  fs sample_world state = Some (File "{ truncated" "2025-01-02T11:00:00")
  /\ json_loads sample_world "{ truncated" = None
  /\ fs sample_world report
     = Some (File "# QA report: all checks passed" "2025-01-02T12:00:00")
  /\ fst (get_qa_status "001" None sample_world)
     = Val (VDict [ ("spec_id", VStr "001-login"); ("found", VBool true);
                    ("qa_run", VBool false); ("passed", VBool false);
                    ("issues", VList []); ("last_run", VNone) ])
  /\ fst (get_qa_status "001" None (with_node state None sample_world))
     = Val (VDict [ ("spec_id", VStr "001-login"); ("found", VBool true);
                    ("qa_run", VBool true); ("passed", VBool true);
                    ("issues", VList []);
                    ("last_run", VStr "2025-01-02T12:00:00") ]).
Proof.
  cbv zeta.
  split; [reflexivity |]. split; [reflexivity |]. split; [reflexivity |].
  split.
  - apply (get_qa_status_unparseable_state
             sample_world (snd (_find_spec "/proj" "001" sample_world))
             "001" None "/proj" (specs / "001-login")
             "{ truncated" "2025-01-02T11:00:00"); reflexivity.
  - vm_compute. reflexivity.
Qed.

End QaFacts.

(* ================================================================== *)
(** * Status derivation *)
(* ================================================================== *)

Module StatusFacts.
Import Sample LookupFacts.

(** ** Counting *)

Lemma count_with_cons (p : value -> bool) (x : value) (xs : list value) :
  count_with p (x :: xs) = (if p x then 1 else 0) + count_with p xs.
Proof.
  unfold count_with. cbn [filter]. destruct (p x); cbn [List.length]; lia.
Qed.

Lemma count_with_app (p : value -> bool) (xs ys : list value) :
  count_with p (xs ++ ys) = count_with p xs + count_with p ys.
Proof.
  induction xs as [| x xs IH]; [reflexivity |].
  cbn [app]. rewrite !count_with_cons, IH. lia.
Qed.

Lemma count_with_bounds (p : value -> bool) (xs : list value) :
  0 <= count_with p xs <= Z.of_nat (List.length xs).
Proof.
  induction xs as [| x xs IH]; [cbn; lia |].
  rewrite count_with_cons. cbn [List.length]. destruct (p x); lia.
Qed.

Lemma count_with_all (p : value -> bool) (xs : list value) :
  count_with p xs = Z.of_nat (List.length xs) <-> forallb p xs = true.
Proof.
  induction xs as [| x xs IH]; [cbn; tauto |].
  rewrite count_with_cons. cbn [List.length forallb].
  pose proof (count_with_bounds p xs) as B.
  destruct (p x); cbn [andb].
  - rewrite <- IH. lia.
  - split; [lia | discriminate].
Qed.

Lemma count_with_some (p : value -> bool) (xs : list value) :
  0 < count_with p xs <-> existsb p xs = true.
Proof.
  induction xs as [| x xs IH]; [cbn; split; [lia | discriminate] |].
  rewrite count_with_cons. cbn [existsb].
  pose proof (count_with_bounds p xs) as B.
  destruct (p x); cbn [orb].
  - split; [reflexivity | lia].
  - rewrite <- IH. lia.
Qed.

Lemma tally_nil (c : Counts) : tally c [] = c.
Proof.
  destruct c. unfold tally, count_with. cbn. f_equal; lia.
Qed.

Lemma tally_app (c : Counts) (xs ys : list value) :
  tally c (xs ++ ys) = tally (tally c xs) ys.
Proof.
  unfold tally. cbn [completed in_progress pending stuck total].
  rewrite !count_with_app, length_app, Nat2Z.inj_add. f_equal; lia.
Qed.

(** ** The loops of [_get_subtask_counts] *)

Lemma count_subtask_tally (c : Counts) (s : value) :
  is_dict s = true -> count_subtask c s = Val (tally c [s]).
Proof.
  destruct s as [| | | | | d]; try discriminate. intros _.
  unfold count_subtask, py_get, rbind, tally.
  rewrite !count_with_cons. unfold has_status, subtask_status.
  change (count_with _ []) with 0. cbn [List.length].
  destruct (dict_get_or d "status" (VStr "pending")) as [| b | n | st | xs | kv];
    cbn [eq_str negb orb]; try (f_equal; f_equal; lia).
  destruct (String.eqb_spec st "complete") as [-> | _];
    [cbn; f_equal; f_equal; lia |].
  destruct (String.eqb_spec st "in_progress") as [-> | _];
    [cbn; f_equal; f_equal; lia |].
  destruct (String.eqb_spec st "stuck") as [-> | _];
    cbn; f_equal; f_equal; lia.
Qed.

Lemma count_subtasks_tally (ss : list value) :
  forall c, forallb is_dict ss = true ->
            rfor_each ss count_subtask c = Val (tally c ss).
Proof.
  induction ss as [| s ss IH]; intros c H.
  - cbn. rewrite tally_nil. reflexivity.
  - cbn [forallb] in H. apply andb_prop in H as [Hs Hss].
    cbn [rfor_each]. rewrite (count_subtask_tally c s Hs). cbn [rbind].
    rewrite (IH _ Hss). change (s :: ss) with ([s] ++ ss)%list.
    rewrite tally_app. reflexivity.
Qed.

Lemma list_field_get (key : string) (v : value) (xs : list value) :
  list_field key v = Some xs ->
  py_get v key (VList []) = Val (VList xs).
Proof.
  unfold list_field, py_get. destruct v; try discriminate.
  destruct (dict_get_or kvs key (VList [])); try discriminate.
  intro H. injection H as ->. reflexivity.
Qed.

Lemma count_phase_tally (c : Counts) (phase : value) :
  phase_shape phase = true ->
  count_phase c phase = Val (tally c (phase_subtasks phase)).
Proof.
  unfold phase_shape, phase_subtasks, count_phase.
  destruct (list_field "subtasks" phase) as [ss |] eqn:E; [| discriminate].
  intro H. rewrite (list_field_get _ _ _ E). cbn [rbind py_iter].
  apply count_subtasks_tally. exact H.
Qed.

Lemma count_phases_tally (ps : list value) :
  forall c, forallb phase_shape ps = true ->
            rfor_each ps count_phase c = Val (tally c (flat_map phase_subtasks ps)).
Proof.
  induction ps as [| p ps IH]; intros c H.
  - cbn. rewrite tally_nil. reflexivity.
  - cbn [forallb] in H. apply andb_prop in H as [Hp Hps].
    cbn [rfor_each flat_map]. rewrite (count_phase_tally c p Hp). cbn [rbind].
    rewrite (IH _ Hps), tally_app. reflexivity.
Qed.

(** On a plan of the expected shape the counters are the tallies of its
    subtasks. *)
Lemma _get_subtask_counts_tally (plan : value) :
  plan_shape plan = true ->
  _get_subtask_counts plan = Val (tally counts_zero (plan_subtasks plan)).
Proof.
  unfold plan_shape, plan_subtasks, plan_phases, _get_subtask_counts.
  destruct (list_field "phases" plan) as [ps |] eqn:E; [| discriminate].
  intro H. rewrite (list_field_get _ _ _ E). cbn [rbind py_iter].
  apply count_phases_tally. exact H.
Qed.

(** ** Overall status *)

Lemma overall_status_derived (spec_dir : Path) (plan : value) (w : World) :
  plan_shape plan = true ->
  fst (_get_spec_overall_status spec_dir plan w)
  = Val (derived_status (plan_subtasks plan)
                        (file_exists w (spec_dir / "qa_report.md"))).
Proof.
  intro Hshape.
  pose proof (_get_subtask_counts_tally plan Hshape) as Hc.
  destruct plan as [| | | | | d]; try discriminate Hshape.
  unfold _get_spec_overall_status, bind, lift. rewrite Hc. clear Hc.
  set (ss := plan_subtasks (VDict d)).
  unfold tally, counts_zero. cbn [completed in_progress pending stuck total].
  rewrite !Z.add_0_l.
  destruct ss as [| s0 ss'] eqn:Ess; [reflexivity |].
  rewrite <- Ess. unfold derived_status.
  assert (Hlen : (Z.of_nat (List.length ss) =? 0) = false).
  { apply Z.eqb_neq. rewrite Ess. cbn [List.length]. lia. }
  rewrite Hlen.
  destruct (forallb (has_status "complete") ss) eqn:Hall.
  - apply count_with_all in Hall. rewrite Hall, Z.eqb_refl.
    unfold exists_, file_exists. cbn beta iota.
    rewrite Ess.
    destruct (fs w (spec_dir / "qa_report.md")); reflexivity.
  - assert (Hne : (count_with (has_status "complete") ss
                   =? Z.of_nat (List.length ss)) = false).
    { apply Z.eqb_neq. intro E. apply count_with_all in E. congruence. }
    rewrite Hne, Ess. rewrite <- Ess.
    destruct (existsb (has_status "in_progress") ss) eqn:Hrun.
    + apply count_with_some in Hrun.
      assert (Hgt : (count_with (has_status "in_progress") ss >? 0) = true)
        by (apply Z.gtb_lt; lia).
      rewrite Hgt. reflexivity.
    + assert (Hgt : (count_with (has_status "in_progress") ss >? 0) = false).
      { destruct (count_with (has_status "in_progress") ss >? 0) eqn:E;
          [| reflexivity].
        apply Z.gtb_lt in E. apply count_with_some in E. congruence. }
      rewrite Hgt.
      destruct (existsb (has_status "stuck") ss) eqn:Hstuck.
      * apply count_with_some in Hstuck.
        assert (Hs : (count_with (has_status "stuck") ss >? 0) = true)
          by (apply Z.gtb_lt; lia).
        rewrite Hs. reflexivity.
      * assert (Hs : (count_with (has_status "stuck") ss >? 0) = false).
        { destruct (count_with (has_status "stuck") ss >? 0) eqn:E;
            [| reflexivity].
          apply Z.gtb_lt in E. apply count_with_some in E. congruence. }
        rewrite Hs. reflexivity.
Qed.

Lemma existsb_in (p : value -> bool) (x : value) (xs : list value) :
  In x xs -> p x = true -> existsb p xs = true.
Proof.
  intros Hin Hp. apply existsb_exists. exists x. split; assumption.
Qed.

Lemma in_progress_not_complete (s : value) :
  has_status "in_progress" s = true -> has_status "complete" s = false.
Proof.
  unfold has_status. destruct (subtask_status s); cbn; try discriminate.
  intro H. apply String.eqb_eq in H. subst. reflexivity.
Qed.

(** C2: the overall status of a spec follows the fixed priority order.
    Without a plan it is pending.  For a plan of the expected shape it is:
    pending when there is no subtask; when every subtask is complete,
    qa_complete if the QA report exists and complete otherwise; else
    in_progress when some subtask is in progress; else stuck when some
    subtask is stuck; else pending.  In particular, subtasks that include a
    stuck one and one in progress give in_progress. *)
Theorem overall_status_priority (spec_dir : Path) (w : World) :
  _get_spec_overall_status spec_dir VNone w = (Val "pending", w)
  /\
  (forall plan : value,
      plan_shape plan = true ->
      fst (_get_spec_overall_status spec_dir plan w)
      = Val (derived_status (plan_subtasks plan)
                            (file_exists w (spec_dir / "qa_report.md"))))
  /\
  (forall (plan s1 s2 : value),
      plan_shape plan = true ->
      In s1 (plan_subtasks plan) -> has_status "stuck" s1 = true ->
      In s2 (plan_subtasks plan) -> has_status "in_progress" s2 = true ->
      fst (_get_spec_overall_status spec_dir plan w) = Val "in_progress").
Proof.
  split; [reflexivity |]. split.
  - intros plan Hshape. apply overall_status_derived. exact Hshape.
  - intros plan s1 s2 Hshape Hin1 Hstuck Hin2 Hrun.
    rewrite (overall_status_derived spec_dir plan w Hshape).
    unfold derived_status.
    destruct (plan_subtasks plan) as [| s0 ss] eqn:E; [destruct Hin1 |].
    rewrite <- E in *.
    assert (Hall : forallb (has_status "complete") (plan_subtasks plan) = false).
    { destruct (forallb (has_status "complete") (plan_subtasks plan)) eqn:F;
        [| reflexivity].
      rewrite forallb_forall in F. specialize (F s2 Hin2).
      rewrite (in_progress_not_complete s2 Hrun) in F. discriminate F. }
    rewrite Hall, (existsb_in _ s2 _ Hin2 Hrun). reflexivity.
Qed.

Lemma overall_status_priority_witness :
  (* 002-search: a stuck subtask and one in progress *)
  fst (_get_spec_overall_status (specs / "002-search") plan_002 sample_world)
  = Val "in_progress"
  (* 003-export: all complete, with a QA report *)
  /\ fst (_get_spec_overall_status (specs / "003-export") plan_003 sample_world)
     = Val "qa_complete"
  (* the same plan where there is no QA report *)
  /\ fst (_get_spec_overall_status (specs / "002-search") plan_003 sample_world)
     = Val "complete".
Proof.
  pose proof (overall_status_priority (specs / "002-search") sample_world)
    as [_ [H2 H2']].
  pose proof (overall_status_priority (specs / "003-export") sample_world)
    as [_ [H3 _]].
  split; [| split].
  - apply (H2' plan_002 (subtask "2.1" "stuck") (subtask "2.2" "in_progress"));
      [reflexivity | cbn; tauto | reflexivity | cbn; tauto | reflexivity].
  - rewrite (H3 plan_003 eq_refl). reflexivity.
  - rewrite (H2 plan_003 eq_refl). reflexivity.
Defined.

End StatusFacts.

(* ================================================================== *)
(** * Status of a phase *)
(* ================================================================== *)

Module PhaseFacts.
Import Sample LookupFacts StatusFacts.

(** For the comparison with "complete" it does not matter whether a missing
    status reads as [None] or as "pending". *)
Lemma get_status_complete (d : list (string * value)) :
  eq_str (dict_get_or d "status" VNone) "complete" = has_status "complete" (VDict d).
Proof.
  unfold has_status, subtask_status, dict_get_or.
  destruct (dict_lookup "status" d); reflexivity.
Qed.

Lemma count_complete_count (ss : list value) :
  forallb is_dict ss = true ->
  count_complete ss = Val (count_with (has_status "complete") ss).
Proof.
  induction ss as [| s ss IH]; intro H; [reflexivity |].
  cbn [forallb] in H. apply andb_prop in H as [Hs Hss].
  destruct s as [| | | | | d]; try discriminate Hs.
  cbn [count_complete py_get rbind]. rewrite (IH Hss). cbn [rbind].
  rewrite count_with_cons, get_status_complete. reflexivity.
Qed.

Lemma find_current_returns (ss : list value) (current : value) :
  forallb is_dict ss = true ->
  exists v, find_current ss current = Val v.
Proof.
  induction ss as [| s ss IH]; intro H; [eexists; reflexivity |].
  cbn [forallb] in H. apply andb_prop in H as [Hs Hss].
  destruct s as [| | | | | d]; try discriminate Hs.
  cbn [find_current py_get rbind].
  destruct (eq_str (dict_get_or d "status" VNone) "in_progress").
  - eexists; reflexivity.
  - apply IH. exact Hss.
Qed.

(** The inline conditional of [get_spec_status] is the rule that counts
    complete subtasks only. *)
Lemma phase_status_counted (ss : list value) :
  phase_status (count_with (has_status "complete") ss) (Z.of_nat (List.length ss))
  = counted_phase_status ss.
Proof.
  unfold phase_status, counted_phase_status.
  destruct (forallb (has_status "complete") ss) eqn:Hall.
  - apply count_with_all in Hall. rewrite Hall, Z.eqb_refl. reflexivity.
  - assert (Hne : (count_with (has_status "complete") ss
                   =? Z.of_nat (List.length ss)) = false).
    { apply Z.eqb_neq. intro E. apply count_with_all in E. congruence. }
    rewrite Hne.
    destruct (existsb (has_status "complete") ss) eqn:Hsome.
    + apply count_with_some in Hsome.
      assert (Hgt : (count_with (has_status "complete") ss >? 0) = true)
        by (apply Z.gtb_lt; lia).
      rewrite Hgt. reflexivity.
    + destruct (count_with (has_status "complete") ss >? 0) eqn:E;
        [| reflexivity].
      apply Z.gtb_lt in E. apply count_with_some in E. congruence.
Qed.

Lemma phase_info_reported (phases : list value) (current : value) (phase : value) :
  phase_shape phase = true ->
  exists current',
    phase_info (phases, current) phase
    = Val ((phases ++ [reported_phase phase])%list, current').
Proof.
  unfold phase_shape, phase_info, reported_phase, phase_subtasks.
  destruct (list_field "subtasks" phase) as [ss |] eqn:E; [| discriminate].
  intro Hss. rewrite (list_field_get _ _ _ E). cbn [rbind py_iter py_len].
  rewrite (count_complete_count ss Hss). cbn [rbind].
  destruct (find_current_returns ss current Hss) as [cur Hcur].
  rewrite Hcur. rewrite phase_status_counted.
  destruct phase as [| | | | | d]; try discriminate E.
  cbn [py_get rbind]. exists cur. reflexivity.
Qed.

Lemma phases_loop_reported (ps : list value) :
  forall (phases : list value) (current : value),
    forallb phase_shape ps = true ->
    exists current',
      rfor_each ps phase_info (phases, current)
      = Val ((phases ++ map reported_phase ps)%list, current').
Proof.
  induction ps as [| p ps IH]; intros phases current H.
  - exists current. cbn. rewrite app_nil_r. reflexivity.
  - cbn [forallb] in H. apply andb_prop in H as [Hp Hps].
    destruct (phase_info_reported phases current p Hp) as [cur Hcur].
    cbn [rfor_each]. rewrite Hcur. cbn [rbind].
    destruct (IH (phases ++ [reported_phase p])%list cur Hps) as [cur' Hcur'].
    exists cur'. rewrite Hcur'. cbn [map]. rewrite <- app_assoc. reflexivity.
Qed.

(** "Get phases info" on a plan of the expected shape *)
Lemma phases_info_reported (plan : value) :
  plan_shape plan = true ->
  exists current,
    phases_info plan = Val (map reported_phase (plan_phases plan), current).
Proof.
  unfold plan_shape, plan_phases, phases_info.
  destruct (list_field "phases" plan) as [ps |] eqn:E; [| discriminate].
  intro H. destruct (truthy plan) eqn:T.
  - rewrite (list_field_get _ _ _ E). cbn [rbind py_iter].
    destruct (phases_loop_reported ps [] VNone H) as [cur Hcur].
    exists cur. exact Hcur.
  - destruct plan as [| | | | | d]; try discriminate E.
    destruct d; [| discriminate T].
    cbn in E. injection E as <-. exists VNone. reflexivity.
Qed.

(** ** From the tool to the block *)

Lemma bind_val_inv {A B : Type} (m : M A) (k : A -> M B) (w w' : World) (v : B) :
  bind m k w = (Val v, w') ->
  exists a w1, m w = (Val a, w1) /\ k a w1 = (Val v, w').
Proof.
  unfold bind. destruct (m w) as [[a | e] w1]; intro H.
  - exists a, w1. split; [reflexivity | exact H].
  - discriminate H.
Qed.

Lemma lift_val_inv {A : Type} (r : result A) (w w' : World) (v : A) :
  lift r w = (Val v, w') -> r = Val v /\ w' = w.
Proof.
  unfold lift. intro H. injection H as -> ->. split; reflexivity.
Qed.

(** A found result of [get_spec_status] carries, under "phases", the list
    that "Get phases info" computes from the plan loaded for the resolved
    spec directory. *)
Lemma get_spec_status_phases
      (w w' : World) (spec_id : string) (project_dir : option string)
      (r : list (string * value)) :
  get_spec_status spec_id project_dir w = (Val (VDict r), w') ->
  dict_lookup "found" r = Some (VBool true) ->
  exists proj_dir spec_dir w1 w2 plan info,
    _get_project_dir project_dir w = (Val proj_dir, w)
    /\ _find_spec proj_dir spec_id w = (Val (Some spec_dir), w1)
    /\ _load_implementation_plan spec_dir w1 = (Val plan, w2)
    /\ phases_info plan = Val info
    /\ dict_lookup "phases" r = Some (VList (fst info)).
Proof.
  intros Hrun Hfound. unfold get_spec_status in Hrun.
  apply bind_val_inv in Hrun as (proj_dir & w0 & Hdir & Hrun).
  destruct (_get_project_dir_pure project_dir w) as [pd Hpure].
  rewrite Hpure in Hdir. injection Hdir as -> <-.
  apply bind_val_inv in Hrun as (found & w1 & Hfind & Hrun).
  destruct found as [spec_dir |].
  2:{ unfold ret in Hrun. injection Hrun as <- _. discriminate Hfound. }
  apply bind_val_inv in Hrun as (plan & w2 & Hplan & Hrun).
  apply bind_val_inv in Hrun as (status & w3 & _ & Hrun).
  apply bind_val_inv in Hrun as (review & w4 & _ & Hrun).
  apply bind_val_inv in Hrun as (info & w5 & Hinfo & Hrun).
  apply lift_val_inv in Hinfo as [Hinfo ->].
  apply bind_val_inv in Hrun as (counts & w6 & _ & Hrun).
  apply bind_val_inv in Hrun as (e & w7 & _ & Hrun).
  unfold ret in Hrun. injection Hrun as <- _.
  exists proj_dir, spec_dir, w1, w2, plan, info.
  repeat split; try assumption.
Qed.

(** ** The claim and its amendment *)

(** C3, as the claim states it, fails: the only phase of 001-login in the
    sample project has a subtask in progress, a pending one and none
    complete.  The claimed rule makes it in_progress; [get_spec_status]
    reports it pending. *)
Lemma phase_in_progress_reported_pending :
  let backend := [ subtask "1.1" "in_progress"; subtask "1.2" "pending" ] in
  plan_phases plan_001 = [ VDict [ ("name", VStr "Backend");
                                   ("subtasks", VList backend) ] ]
  /\ claimed_phase_status backend = "in_progress"
  /\ match fst (get_spec_status "001" None sample_world) with
     | Val (VDict r) => dict_lookup "phases" r
     | _ => None
     end
     = Some (VList [ VDict [ ("name", VStr "Backend");
                             ("status", VStr "pending");
                             ("subtasks", VInt 2);
                             ("completed", VInt 0) ] ]).
Proof.
  cbv zeta. split; [reflexivity |]. split; [reflexivity |].
  vm_compute. reflexivity.
Qed.

(** C3, amended: for every phase of a loaded plan of the expected shape,
    [get_spec_status] reports the phase as complete iff every subtask of the
    phase is complete, as in_progress iff the phase is not complete and at
    least one subtask is complete, and as pending otherwise; subtasks in
    progress do not enter the rule.  The three parts: the block "Get phases
    info" returns one such entry per phase; a found result of the tool
    carries that list under "phases"; the rule, spelled out. *)
Theorem phase_status_counts_complete_only :
  (forall plan : value,
      plan_shape plan = true ->
      exists current,
        phases_info plan = Val (map reported_phase (plan_phases plan), current))
  /\
  (forall (w w' : World) (spec_id : string) (project_dir : option string)
          (r : list (string * value)),
      get_spec_status spec_id project_dir w = (Val (VDict r), w') ->
      dict_lookup "found" r = Some (VBool true) ->
      exists proj_dir spec_dir w1 w2 plan,
        _get_project_dir project_dir w = (Val proj_dir, w)
        /\ _find_spec proj_dir spec_id w = (Val (Some spec_dir), w1)
        /\ _load_implementation_plan spec_dir w1 = (Val plan, w2)
        /\ (plan_shape plan = true ->
            dict_lookup "phases" r
            = Some (VList (map reported_phase (plan_phases plan)))))
  /\
  (forall subtasks : list value,
      (counted_phase_status subtasks = "complete"
       <-> forallb (has_status "complete") subtasks = true)
      /\ (counted_phase_status subtasks = "in_progress"
          <-> forallb (has_status "complete") subtasks = false
              /\ existsb (has_status "complete") subtasks = true)
      /\ (counted_phase_status subtasks = "pending"
          <-> forallb (has_status "complete") subtasks = false
              /\ existsb (has_status "complete") subtasks = false)).
Proof.
  split; [exact phases_info_reported |]. split.
  - intros w w' spec_id project_dir r Hrun Hfound.
    destruct (get_spec_status_phases w w' spec_id project_dir r Hrun Hfound)
      as (proj_dir & spec_dir & w1 & w2 & plan & info & Hd & Hf & Hp & Hi & Hr).
    exists proj_dir, spec_dir, w1, w2, plan.
    repeat (split; [assumption |]).
    intro Hshape. destruct (phases_info_reported plan Hshape) as [cur Hcur].
    rewrite Hcur in Hi. injection Hi as <-. exact Hr.
  - intro subtasks. unfold counted_phase_status.
    destruct (forallb (has_status "complete") subtasks);
      destruct (existsb (has_status "complete") subtasks);
      repeat split; intros; try reflexivity; try discriminate;
      match goal with H : _ /\ _ |- _ => destruct H; discriminate end.
Qed.

Lemma phase_status_counts_complete_only_witness :
  match fst (get_spec_status "002" None sample_world) with
  | Val (VDict r) => dict_lookup "phases" r
  | _ => None
  end
  = Some (VList [ VDict [ ("name", VStr "Index"); ("status", VStr "complete");
                          ("subtasks", VInt 2); ("completed", VInt 2) ];
                  VDict [ ("name", VStr "Query"); ("status", VStr "in_progress");
                          ("subtasks", VInt 3); ("completed", VInt 1) ] ]).
Proof.
  destruct (get_spec_status "002" None sample_world) as [[[| | | | | r] | e] w']
    eqn:Hrun; try (vm_compute in Hrun; discriminate Hrun).
  assert (Hfound : dict_lookup "found" r = Some (VBool true)).
  { vm_compute in Hrun. injection Hrun as <- _. reflexivity. }
  destruct (proj1 (proj2 phase_status_counts_complete_only)
              sample_world w' "002" None r Hrun Hfound)
    as (proj_dir & spec_dir & w1 & w2 & plan & Hd & Hf & Hp & Hr).
  vm_compute in Hd. injection Hd as <-.
  vm_compute in Hf. injection Hf as <- <-.
  vm_compute in Hp. injection Hp as <- _.
  cbn [fst]. rewrite (Hr eq_refl). reflexivity.
Defined.

End PhaseFacts.

(* ================================================================== *)
(** * End-to-end scenarios *)
(* ================================================================== *)

Module Scenarios.
Import Sample.

(** One phase with subtasks complete, complete and in progress, no QA
    report: overall in_progress, the phase in_progress, two of three
    completed. *)
Example two_done_one_running :
  fst (get_spec_status "007" None two_done_world)
  = Val (VDict
           [ ("id", VStr "007-sync"); ("found", VBool true);
             ("status", VStr "in_progress");
             ("approved", VBool false); ("approved_by", VNone);
             ("phases", VList [ VDict [ ("name", VStr "Only");
                                        ("status", VStr "in_progress");
                                        ("subtasks", VInt 3);
                                        ("completed", VInt 2) ] ]);
             ("subtasks", VDict [ ("completed", VInt 2); ("in_progress", VInt 1);
                                  ("pending", VInt 0); ("stuck", VInt 0);
                                  ("total", VInt 3) ]);
             ("current_subtask", VDict [ ("id", VStr "3");
                                         ("description", VStr "do 3");
                                         ("attempts", VInt 1) ]);
             ("worktree_path", VNone) ]).
Proof. vm_compute. reflexivity. Qed.

(** [merge_preview] for a spec without a worktree: no subprocess is run. *)
Example merge_preview_without_worktree :
  fst (merge_preview "002" None sample_world)
  = Val (VDict [ ("spec_id", VStr "002-search"); ("found", VBool true);
                 ("has_worktree", VBool false); ("can_merge", VBool false);
                 ("message", VStr "No worktree found for this spec") ])
  /\ trace (snd (merge_preview "002" None sample_world))
     = [ SysExists specs; SysIterdir specs;
         SysIsDir (specs / "001-login"); SysIsDir (specs / "README.md");
         SysIsDir (specs / "002-search");
         SysExists (wts / "002-search") ].
Proof. vm_compute. split; reflexivity. Qed.

(** A confirmed clean-up over three worktrees where one removal raises:
    the other two are removed, one error is listed, the status is partial. *)
Example cleanup_partial :
  fst (cleanup_worktrees None true three_worktrees)
  = Val (VDict [ ("status", VStr "partial");
                 ("removed", VList [VStr "001-a"; VStr "003-c"]);
                 ("removed_count", VInt 2);
                 ("errors", VList [ VDict [ ("worktree", VStr "002-b");
                                            ("error", VStr "Permission denied") ] ]) ])
  /\ worktrees (snd (cleanup_worktrees None true three_worktrees)) = [wts / "002-b"].
Proof. vm_compute. split; reflexivity. Qed.

End Scenarios.
